(** * Cohort validator: the Python wrapper around the CIRCE checker

    A shallow embedding of [cohort_validator/cohort_validator.py]
    ([CohortValidator.validate_cohort], [validate_cohort_file]) and of
    [cohort_validator/cli.py] ([main], [format_text_output]).

    Conventions of the embedding.
    - A Python [str] is a Rocq [string]; each character stands for one code
      point below 256.  Severity names, class names and the literals of the
      source are ASCII.
    - Python objects are the values [json.load] produces (and [PyOther] for
      any object [json.dumps] refuses): trees with str keys, without
      cycles.  Objects live in a store and are passed by reference, as
      Python passes them.
    - The Java side (JPype, the CIRCE jar) is not Python code: the Java
      methods the wrapper calls are parameters of the development, acting
      on an abstract JVM state and able to throw.
    - Exceptions, the store, the file system, the JVM and the standard
      streams are threaded by a state-and-exception monad.
    - Outside the model: a failure of [print]; the limits [json.dumps]
      puts on the digits of an int and on the depth of nesting; the path
      lookups of the constructor and the lines they print; the normal
      form [pathlib] gives a path.  The getters of a Java warning are
      read as data of the object. *)

From Stdlib Require Import String Ascii ZArith List Lia Bool DecimalString.
From stdpp Require Import gmap strings list.
Import ListNotations.
Local Open Scope string_scope.
Set Warnings "-register-all".

(** ** Strings *)

Module Str.

(** [str.upper] on ASCII letters; other characters are kept.  Python
    maps some code points from 128 to 255 elsewhere, never to a letter of
    CRITICAL or ERROR, so the severity test of the wrapper is the same. *)
Definition upper_char (c : ascii) : ascii :=
  let n := N_of_ascii c in
  if ((97 <=? n) && (n <=? 122))%N then ascii_of_N (n - 32) else c.

Fixpoint upper (s : string) : string :=
  match s with
  | EmptyString => EmptyString
  | String c r => String (upper_char c) (upper r)
  end.

(** [sep.join(parts)] *)
Fixpoint join (sep : string) (parts : list string) : string :=
  match parts with
  | [] => EmptyString
  | [p] => p
  | p :: rest => p ++ sep ++ join sep rest
  end.

(** [s * n] *)
Fixpoint repeat (s : string) (n : nat) : string :=
  match n with
  | O => EmptyString
  | S k => s ++ repeat s k
  end.

(** [str(n)] for an [int] *)
Definition of_Z (z : Z) : string := NilZero.string_of_int (Z.to_int z).

Definition of_nat (n : nat) : string := of_Z (Z.of_nat n).

(** [x in xs] for a list of strings *)
Definition mem (x : string) (xs : list string) : bool :=
  existsb (String.eqb x) xs.

Definition newline : string := String (ascii_of_N 10) EmptyString.
Definition dquote : string := String (ascii_of_N 34) EmptyString.
Definition backslash : string := String (ascii_of_N 92) EmptyString.

Definition hex_digit (n : N) : ascii :=
  if (n <? 10)%N then ascii_of_N (48 + n) else ascii_of_N (87 + n).

(** the u-escape with four lower-case hex digits, for a code point below 256 *)
Definition u_escape (n : N) : string :=
  backslash ++ "u00" ++
  String (hex_digit (n / 16)) (String (hex_digit (n mod 16)) EmptyString).

End Str.

(** ** Python values and [json.dumps] *)

Inductive pyvalue : Type :=
| PyNone
| PyBool (b : bool)
| PyInt (z : Z)
| PyFloat (repr : string)           (* a float, by its [repr] *)
| PyStr (s : string)
| PyList (items : list pyvalue)
| PyDict (items : list (string * pyvalue))   (* insertion order, str keys *)
| PyOther (type_name : string).     (* an object json cannot serialise *)

Module Json.

(** [json.encoder.py_encode_basestring_ascii]: a backslash, a double
    quote and every character outside the range from space to tilde
    (the matches of ESCAPE_ASCII) are replaced through ESCAPE_DCT or by
    a u-escape of four hex digits, and the result is put between double
    quotes. *)
Definition escape_char (c : ascii) : string :=
  let n := N_of_ascii c in
  if (n =? 34)%N then Str.backslash ++ Str.dquote
  else if (n =? 92)%N then Str.backslash ++ Str.backslash
  else if (n =? 8)%N then Str.backslash ++ "b"
  else if (n =? 12)%N then Str.backslash ++ "f"
  else if (n =? 10)%N then Str.backslash ++ "n"
  else if (n =? 13)%N then Str.backslash ++ "r"
  else if (n =? 9)%N then Str.backslash ++ "t"
  else if ((32 <=? n) && (n <=? 126))%N then String c EmptyString
  else Str.u_escape n.

Fixpoint escape (s : string) : string :=
  match s with
  | EmptyString => EmptyString
  | String c r => escape_char c ++ escape r
  end.

Definition encode_basestring_ascii (s : string) : string :=
  Str.dquote ++ escape s ++ Str.dquote.

(** [float.__repr__] with the three names json substitutes *)
Definition floatstr (repr : string) : string :=
  if String.eqb repr "nan" then "NaN"
  else if String.eqb repr "inf" then "Infinity"
  else if String.eqb repr "-inf" then "-Infinity"
  else repr.

(** a newline and [_indent * level] when an indent is given, nothing
    otherwise *)
Definition newline_indent (indent : option nat) (level : nat) : string :=
  match indent with
  | Some n => Str.newline ++ Str.repeat " " (n * level)
  | None => EmptyString
  end.

(** the default separators: [', '] without indent, [','] with one *)
Definition item_separator (indent : option nat) : string :=
  match indent with
  | Some _ => ","
  | None => ", "
  end.

Definition key_separator : string := ": ".

(** the message of the [TypeError] raised by [JSONEncoder.default] *)
Definition not_serializable (type_name : string) : string :=
  "Object of type " ++ type_name ++ " is not JSON serializable".

(** [JSONEncoder.iterencode]: the text, or the message of the
    [TypeError] raised at the first object that cannot be encoded. *)
Fixpoint encode (indent : option nat) (level : nat) (o : pyvalue)
  : string + string :=
  match o with
  | PyNone => inr "null"
  | PyBool true => inr "true"
  | PyBool false => inr "false"
  | PyInt z => inr (Str.of_Z z)
  | PyFloat r => inr (floatstr r)
  | PyStr s => inr (encode_basestring_ascii s)
  | PyOther t => inl (not_serializable t)
  | PyList [] => inr "[]"
  | PyList items =>
      let fix each (l : list pyvalue) : string + list string :=
        match l with
        | [] => inr []
        | x :: r =>
            match encode indent (S level) x with
            | inl e => inl e
            | inr s =>
                match each r with
                | inl e => inl e
                | inr ss => inr (s :: ss)
                end
            end
        end in
      match each items with
      | inl e => inl e
      | inr chunks =>
          inr ("[" ++ newline_indent indent (S level)
               ++ Str.join (item_separator indent
                            ++ newline_indent indent (S level)) chunks
               ++ newline_indent indent level ++ "]")
      end
  | PyDict [] => inr "{}"
  | PyDict items =>
      let fix each (l : list (string * pyvalue)) : string + list string :=
        match l with
        | [] => inr []
        | (k, x) :: r =>
            match encode indent (S level) x with
            | inl e => inl e
            | inr s =>
                match each r with
                | inl e => inl e
                | inr ss =>
                    inr ((encode_basestring_ascii k ++ key_separator ++ s)
                         :: ss)
                end
            end
        end in
      match each items with
      | inl e => inl e
      | inr chunks =>
          inr ("{" ++ newline_indent indent (S level)
               ++ Str.join (item_separator indent
                            ++ newline_indent indent (S level)) chunks
               ++ newline_indent indent level ++ "}")
      end
  end.

(** [json.dumps(o)] and [json.dumps(o, indent=n)] *)
Definition dumps (o : pyvalue) : string + string := encode None 0 o.
Definition dumps_indent (n : nat) (o : pyvalue) : string + string :=
  encode (Some n) 0 o.

End Json.

(** ** Exceptions *)

Inductive exn_class : Type :=
| JSONDecodeError
| FileNotFoundError
| TypeError
| OSError
| RuntimeError
| JavaException.   (* a Java throwable, as JPype raises it in Python *)

(** A raised exception.  [Exn] is an instance of (a subclass of)
    [Exception] with the text [str(e)]; [SystemExit] is what [sys.exit]
    raises, which derives from [BaseException] only. *)
Inductive exn : Type :=
| Exn (cls : exn_class) (text : string)
| SystemExit (code : Z).

Definition exn_class_eqb (a b : exn_class) : bool :=
  match a, b with
  | JSONDecodeError, JSONDecodeError
  | FileNotFoundError, FileNotFoundError
  | TypeError, TypeError
  | OSError, OSError
  | RuntimeError, RuntimeError
  | JavaException, JavaException => true
  | _, _ => false
  end.

(** [isinstance(e, Exception)] *)
Definition is_Exception (e : exn) : bool :=
  match e with
  | Exn _ _ => true
  | SystemExit _ => false
  end.

(** [isinstance(e, cls)] for the two classes the handlers name *)
Definition isinstance (cls : exn_class) (e : exn) : bool :=
  match e with
  | Exn c _ => exn_class_eqb c cls
  | SystemExit _ => false
  end.

(** [str(e)] *)
Definition exn_str (e : exn) : string :=
  match e with
  | Exn _ text => text
  | SystemExit code => Str.of_Z code
  end.

(** ** What the Java checker hands back *)

(** A [org.ohdsi.circe.check.Warning] as Python observes it: the text of
    [toMessage()], the text of [getSeverity()] when the object has that
    method ([None] when [hasattr] is false), and the simple name of its
    class.  The three are getters; the model takes what they return as
    data of the object. *)
Record JavaWarning : Type := {
  toMessage : string;
  getSeverity : option string;
  getSimpleName : string
}.

(** A finding as the wrapper returns it: a Python dict whose keys and
    values are all [str], in insertion order. *)
Definition finding : Type := list (string * string).

(** [d.get(key, default)] *)
Fixpoint dict_get (d : finding) (key default : string) : string :=
  match d with
  | [] => default
  | (k, v) :: rest => if String.eqb k key then v else dict_get rest key default
  end.

(** the finding as a Python object *)
Definition finding_object (d : finding) : pyvalue :=
  PyDict (map (fun kv => (fst kv, PyStr (snd kv))) d).

(** ** The world and the monad *)

Definition loc : Type := nat.

Inductive fnode : Type :=
| FText (text : string)          (* a readable text file *)
| FUnreadable (reason : string). (* opening it raises OSError *)

Inductive outcome (A : Type) : Type :=
| Ok (a : A)
| Raise (e : exn).
Arguments Ok {A} a.
Arguments Raise {A} e.

Section Validator.

(** The JVM, the [CohortExpression] class and the two Java methods the
    wrapper calls.  A Java call may change the JVM and may throw; the
    left summand is the text of the throwable. *)
Context {JVM CohortExpression : Type}.
Variable fromJson : string -> JVM -> (string + CohortExpression) * JVM.
Variable check :
  CohortExpression -> JVM -> (string + list JavaWarning) * JVM.

(** Calls made into the JVM, in order. *)
Inductive jcall : Type :=
| CallFromJson (document : string)
| CallCheck (expression : CohortExpression).

Record world : Type := World {
  py_objs : gmap loc pyvalue;     (* Python objects, by identity *)
  files : gmap string fnode;      (* the file system *)
  jvm : JVM;
  jcalls : list jcall;
  stdout : list string;
  stderr : list string
}.

Definition M (A : Type) : Type := world -> outcome A * world.

Definition ret {A} (a : A) : M A := fun w => (Ok a, w).

Definition raise {A} (e : exn) : M A := fun w => (Raise e, w).

Definition bind {A B} (m : M A) (k : A -> M B) : M B :=
  fun w =>
    match m w with
    | (Ok a, w') => k a w'
    | (Raise e, w') => (Raise e, w')
    end.

Notation "x <- m ;; k" := (bind m (fun x => k))
  (at level 100, m at next level, right associativity).

(** [try: body except C1 as e: h1 except C2 as e: h2 ...]: the first
    clause whose class test accepts the exception handles it; an
    exception no clause accepts propagates. *)
Definition clause (A : Type) : Type := (exn -> bool) * (exn -> M A).

Fixpoint dispatch {A} (clauses : list (clause A)) (e : exn) : M A :=
  match clauses with
  | [] => raise e
  | (accepts, handler) :: rest =>
      if accepts e then handler e else dispatch rest e
  end.

Definition try_except {A} (body : M A) (clauses : list (clause A)) : M A :=
  fun w =>
    match body w with
    | (Ok a, w') => (Ok a, w')
    | (Raise e, w') => dispatch clauses e w'
    end.

(** *** Primitive effects *)

Definition set_py_objs (w : world) (o : gmap loc pyvalue) : world :=
  World o (files w) (jvm w) (jcalls w) (stdout w) (stderr w).

Definition set_files (w : world) (f : gmap string fnode) : world :=
  World (py_objs w) f (jvm w) (jcalls w) (stdout w) (stderr w).

Definition after_jcall (w : world) (j : JVM) (c : jcall) : world :=
  World (py_objs w) (files w) j (jcalls w ++ [c]) (stdout w) (stderr w).

Definition set_jvm (w : world) (j : JVM) : world :=
  World (py_objs w) (files w) j (jcalls w) (stdout w) (stderr w).

Definition print_stdout (line : string) : M unit :=
  fun w => (Ok tt, World (py_objs w) (files w) (jvm w) (jcalls w)
                         (stdout w ++ [line]) (stderr w)).

Definition print_stderr (line : string) : M unit :=
  fun w => (Ok tt, World (py_objs w) (files w) (jvm w) (jcalls w)
                         (stdout w) (stderr w ++ [line])).

(** Reading the object a reference names.  In Python a reference always
    names an object; the model raises for one that names none. *)
Definition load (o : loc) : M pyvalue :=
  fun w =>
    match py_objs w !! o with
    | Some v => (Ok v, w)
    | None => (Raise (Exn RuntimeError "unbound reference"), w)
    end.

(** A new object, at an identity no object has yet. *)
Definition new_object (v : pyvalue) : M loc :=
  fun w =>
    let o := fresh (dom (py_objs w)) in
    (Ok o, set_py_objs w (<[o := v]> (py_objs w))).

(** [json.dumps(o)]: reads the object, raises [TypeError] when some part
    of it cannot be serialised. *)
Definition json_dumps (o : loc) : M string :=
  v <- load o ;;
  match Json.dumps v with
  | inr text => ret text
  | inl message => raise (Exn TypeError message)
  end.

(** [self._cohort_expression_class.fromJson(document)] *)
Definition call_fromJson (document : string) : M CohortExpression :=
  fun w =>
    let '(r, j) := fromJson document (jvm w) in
    let w' := after_jcall w j (CallFromJson document) in
    match r with
    | inr expression => (Ok expression, w')
    | inl thrown => (Raise (Exn JavaException thrown), w')
    end.

(** [self._checker.check(cohort_expression)] *)
Definition call_check (expression : CohortExpression)
  : M (list JavaWarning) :=
  fun w =>
    let '(r, j) := check expression (jvm w) in
    let w' := after_jcall w j (CallCheck expression) in
    match r with
    | inr java_warnings => (Ok java_warnings, w')
    | inl thrown => (Raise (Exn JavaException thrown), w')
    end.

(** [with open(file_path, "r", encoding="utf-8") as f: f.read()] *)
Definition read_text (file_path : string) : M string :=
  fun w =>
    match files w !! file_path with
    | Some (FText text) => (Ok text, w)
    | Some (FUnreadable reason) => (Raise (Exn OSError reason), w)
    | None =>
        (Raise (Exn FileNotFoundError
                  ("[Errno 2] No such file or directory: '"
                   ++ file_path ++ "'")), w)
    end.

(** *** [CohortValidator.validate_cohort] *)

(** the value stored under [severity]: [str(java_warning.getSeverity())]
    if the object has the method, else [UNKNOWN] *)
Definition severity_text (java_warning : JavaWarning) : string :=
  match getSeverity java_warning with
  | Some s => s
  | None => "UNKNOWN"
  end.

Definition warning_dict (java_warning : JavaWarning) : finding :=
  [("message", toMessage java_warning);
   ("severity", severity_text java_warning);
   ("type", getSimpleName java_warning)].

(** [severity in ["CRITICAL", "ERROR"]] for
    [severity = warning_dict["severity"].upper()] *)
Definition is_error_severity (severity : string) : bool :=
  Str.mem (Str.upper severity) ["CRITICAL"; "ERROR"].

(** The [for java_warning in java_warnings] loop, on the two lists it
    appends to. *)
Fixpoint convert_warnings (java_warnings : list JavaWarning)
         (warnings errors : list finding) : list finding * list finding :=
  match java_warnings with
  | [] => (warnings, errors)
  | java_warning :: rest =>
      if is_error_severity (severity_text java_warning)
      then convert_warnings rest warnings
                            (errors ++ [warning_dict java_warning])
      else convert_warnings rest (warnings ++ [warning_dict java_warning])
                            errors
  end.

(** the dictionary the [except] branches return *)
Definition critical (message type : string) : finding :=
  [("message", message); ("severity", "CRITICAL"); ("type", type)].

Definition validate_cohort (cohort_json : loc)
  : M (list finding * list finding) :=
  try_except
    (document <- json_dumps cohort_json ;;
     cohort_expression <- call_fromJson document ;;
     java_warnings <- call_check cohort_expression ;;
     ret (convert_warnings java_warnings [] []))
    [ (isinstance JSONDecodeError,
       fun e => ret ([], [critical ("Invalid JSON: " ++ exn_str e)
                                   "JSON_ERROR"]));
      (is_Exception,
       fun e => ret ([], [critical ("Validation error: " ++ exn_str e)
                                   "VALIDATION_ERROR"])) ].

(** *** [CohortValidator.validate_cohort_file] *)

Definition validate_cohort_file (file_path : string)
  : M (list finding * list finding) :=
  try_except
    (text <- read_text file_path ;;
     cohort_json <- new_object (PyStr text) ;;
     validate_cohort cohort_json)
    [ (isinstance FileNotFoundError,
       fun _ => ret ([], [critical ("File not found: " ++ file_path)
                                   "FILE_ERROR"]));
      (is_Exception,
       fun e => ret ([], [critical ("File read error: " ++ exn_str e)
                                   "FILE_ERROR"])) ].

(** *** The command line: [cli.main] *)

Inductive output_format : Type := FormatJson | FormatText.

(** the namespace [parser.parse_args()] returns *)
Record cli_args : Type := {
  input_file : string;
  output : option string;
  format : output_format;
  jar_path : option string;
  deps_path : option string
}.

(** [if x:] for an optional string argument: given and not empty *)
Definition given (x : option string) : bool :=
  match x with
  | Some s => negb (String.eqb s EmptyString)
  | None => false
  end.

Record cli_summary : Type := {
  total_warnings : nat;
  total_errors : nat;
  is_valid : bool
}.

(** the [result] dictionary of [main] *)
Record cli_result : Type := {
  result_input_file : string;
  result_warnings : list finding;
  result_errors : list finding;
  summary : cli_summary
}.

Definition make_result (input_path : string)
           (warnings errors : list finding) : cli_result :=
  {| result_input_file := input_path;
     result_warnings := warnings;
     result_errors := errors;
     summary := {| total_warnings := length warnings;
                   total_errors := length errors;
                   is_valid := Nat.eqb (length errors) 0 |} |}.

Definition result_object (result : cli_result) : pyvalue :=
  PyDict
    [("input_file", PyStr (result_input_file result));
     ("warnings", PyList (map finding_object (result_warnings result)));
     ("errors", PyList (map finding_object (result_errors result)));
     ("summary",
      PyDict
        [("total_warnings",
          PyInt (Z.of_nat (total_warnings (summary result))));
         ("total_errors",
          PyInt (Z.of_nat (total_errors (summary result))));
         ("is_valid", PyBool (is_valid (summary result)))])].

(** the numbered lines of one block, counting from [i] *)
Fixpoint numbered_lines (i : nat) (items : list finding) : list string :=
  match items with
  | [] => []
  | item :: rest =>
      (Str.of_nat i ++ ". [" ++ dict_get item "severity" "UNKNOWN" ++ "] "
       ++ dict_get item "message" "No message")
      :: numbered_lines (S i) rest
  end.

Definition block (title : string) (items : list finding) : list string :=
  match items with
  | [] => []
  | _ => [title; Str.repeat "-" 20] ++ numbered_lines 1 items
         ++ [EmptyString]
  end.

Definition format_text_output (result : cli_result) : string :=
  Str.join Str.newline
    ([ "Validation Results for: " ++ result_input_file result;
       Str.repeat "=" 50;
       "Total Warnings: " ++ Str.of_nat (total_warnings (summary result));
       "Total Errors: " ++ Str.of_nat (total_errors (summary result));
       "Valid: " ++ (if is_valid (summary result) then "Yes" else "No");
       EmptyString ]
     ++ block "WARNINGS:" (result_warnings result)
     ++ block "ERRORS:" (result_errors result)).

(** [json.loads]: the value, or the text of the [JSONDecodeError]. *)
Variable json_loads : string -> string + pyvalue.

(** The constructor of [CohortValidator]: starting the JVM on the class
    path and importing the Java classes.  Both steps run outside Python
    and may fail. *)
Variable start_jvm : option string -> JVM -> (string + unit) * JVM.
Variable load_classes : JVM -> (string + unit) * JVM.

Definition sys_exit {A} (code : Z) : M A := raise (SystemExit code).

(** [Path(p).exists()] *)
Definition path_exists (p : string) : M bool :=
  fun w => (Ok (bool_decide (is_Some (files w !! p))), w).

(** [with open(p, "w", encoding="utf-8") as f: f.write(text)] *)
Definition write_text (p text : string) : M unit :=
  fun w =>
    match files w !! p with
    | Some (FUnreadable reason) => (Raise (Exn OSError reason), w)
    | _ => (Ok tt, set_files w (<[p := FText text]> (files w)))
    end.

(** [json.load(f)]: the parsed document is a new object. *)
Definition json_load (text : string) : M loc :=
  match json_loads text with
  | inr v => new_object v
  | inl message => raise (Exn JSONDecodeError message)
  end.

Definition jvm_step (step : JVM -> (string + unit) * JVM)
           (wrap : string -> exn) : M unit :=
  fun w =>
    let '(r, j) := step (jvm w) in
    match r with
    | inr _ => (Ok tt, set_jvm w j)
    | inl message => (Raise (wrap message), set_jvm w j)
    end.

(** [CohortValidator.__init__(self, jar_path=None)] *)
Definition CohortValidator_init (jar_path : option string) : M unit :=
  _ <- jvm_step (start_jvm jar_path) (Exn JavaException) ;;
  jvm_step load_classes
    (fun e => Exn RuntimeError ("Failed to load Java classes: " ++ e)).

(** [CohortValidator] called with [validator_kwargs]: the constructor has no
    [deps_path] parameter, so passing one raises [TypeError]. *)
Definition new_validator (args : cli_args) : M unit :=
  if given (deps_path args)
  then raise (Exn TypeError
    "CohortValidator.__init__() got an unexpected keyword argument 'deps_path'")
  else CohortValidator_init
         (if given (jar_path args) then jar_path args else None).

Definition render (fmt : output_format) (result : cli_result) : M string :=
  match fmt with
  | FormatJson =>
      match Json.dumps_indent 2 (result_object result) with
      | inr text => ret text
      | inl message => raise (Exn TypeError message)
      end
  | FormatText => ret (format_text_output result)
  end.

(** the [except Exception as e] clause of [main] *)
Definition main_handlers : list (clause unit) :=
  [ (is_Exception,
     fun e => _ <- print_stderr ("Error: " ++ exn_str e) ;;
              sys_exit 1) ].

(** [main], from the line after [parser.parse_args()] on.  A path is
    taken in the form [pathlib] prints it, so [str(input_path)] is the
    argument itself. *)
Definition main (args : cli_args) : M unit :=
  try_except
    (let input_path := input_file args in
     found <- path_exists input_path ;;
     _ <- (if found then ret tt
           else (_ <- print_stderr ("Error: Input file '" ++ input_file args
                                    ++ "' not found") ;;
                 sys_exit 1)) ;;
     text <- read_text input_path ;;
     cohort_data <- json_load text ;;
     _ <- new_validator args ;;
     r <- validate_cohort cohort_data ;;
     let warnings := fst r in
     let errors := snd r in
     let result := make_result input_path warnings errors in
     rendered <- render (format args) result ;;
     _ <- (match output args with
           | Some p => if given (output args) then write_text p rendered
                       else print_stdout rendered
           | None => print_stdout rendered
           end) ;;
     sys_exit (if Nat.eqb (length errors) 0 then 0 else 1)%Z)
    main_handlers.

(** The statements of [main] before and after the call of
    [validate_cohort], named so that properties of [main] can speak of
    them: loading the document and building the validator, and rendering
    and emitting the result. *)
Definition main_prepare (args : cli_args) : M loc :=
  found <- path_exists (input_file args) ;;
  _ <- (if found then ret tt
        else (_ <- print_stderr ("Error: Input file '" ++ input_file args
                                 ++ "' not found") ;;
              sys_exit 1)) ;;
  text <- read_text (input_file args) ;;
  cohort_data <- json_load text ;;
  _ <- new_validator args ;;
  ret cohort_data.

Definition main_report (args : cli_args)
           (warnings errors : list finding) : M unit :=
  rendered <- render (format args)
                     (make_result (input_file args) warnings errors) ;;
  match output args with
  | Some p => if given (output args) then write_text p rendered
              else print_stdout rendered
  | None => print_stdout rendered
  end.

(** *** Vocabulary for the properties *)

(** the severity test of the loop, on a Java warning *)
Definition reported_as_error (java_warning : JavaWarning) : bool :=
  is_error_severity (severity_text java_warning).

(** what the second [except] branch of [validate_cohort] returns *)
Definition validation_error (text : string) : list finding * list finding :=
  ([], [critical ("Validation error: " ++ text) "VALIDATION_ERROR"]).

(** In world [w] the object [cohort_json] serialises, the document is
    accepted by [fromJson] and the checker returns [java_warnings]. *)
Definition checker_reports (cohort_json : loc) (w : world)
           (java_warnings : list JavaWarning) : Prop :=
  exists v document expression j1 j2,
    py_objs w !! cohort_json = Some v
    /\ Json.dumps v = inr document
    /\ fromJson document (jvm w) = (inr expression, j1)
    /\ check expression j1 = (inr java_warnings, j2).

(** In world [w] the object [cohort_json] is not turned into an
    expression: it cannot be serialised, or [fromJson] throws on the
    document. *)
Definition ingestion_fails (cohort_json : loc) (w : world) : Prop :=
  (exists v message,
      py_objs w !! cohort_json = Some v /\ Json.dumps v = inl message)
  \/ (exists v document thrown j,
         py_objs w !! cohort_json = Some v
         /\ Json.dumps v = inr document
         /\ fromJson document (jvm w) = (inl thrown, j)).

(** the exit status of the process that ran [main] *)
Definition exit_status (o : outcome unit) : Z :=
  match o with
  | Ok _ => 0
  | Raise (SystemExit code) => code
  | Raise (Exn _ _) => 1
  end.

End Validator.

(** ** A small Java side to run the definitions on

    The JVM state counts the calls made; an expression is the document it
    was built from.  [fromJson] builds an expression from a JSON object and
    throws on any other document, as a data binder does. *)

Module Toy.

Definition JVM : Type := nat.
Definition CohortExpression : Type := string.

Definition starts_with_brace (document : string) : bool :=
  match document with
  | String c _ => Ascii.eqb c "{"%char
  | EmptyString => false
  end.

Definition fromJson (document : string) (j : JVM)
  : (string + CohortExpression) * JVM :=
  if starts_with_brace document then (inr document, S j)
  else (inl "MismatchedInputException: cannot construct CohortExpression",
        S j).

(** a checker that reports nothing *)
Definition silent_check (e : CohortExpression) (j : JVM)
  : (string + list JavaWarning) * JVM := (inr [], S j).

Definition sample_warnings : list JavaWarning :=
  [ {| toMessage := "Concept set is not used";
       getSeverity := Some "WARNING";
       getSimpleName := "ConceptSetWarning" |};
    {| toMessage := "No exit criteria";
       getSeverity := Some "critical";
       getSimpleName := "DefaultWarning" |};
    {| toMessage := "Initial event is fine";
       getSeverity := Some "INFO";
       getSimpleName := "DefaultWarning" |};
    {| toMessage := "Something odd";
       getSeverity := None;
       getSimpleName := "Object" |} ].

(** a checker that reports four findings of different severities *)
Definition sample_check (e : CohortExpression) (j : JVM)
  : (string + list JavaWarning) * JVM := (inr sample_warnings, S j).

(** a checker whose report depends on the state of the JVM *)
Definition counting_check (e : CohortExpression) (j : JVM)
  : (string + list JavaWarning) * JVM :=
  (inr [ {| toMessage := Str.of_nat j;
            getSeverity := Some "INFO";
            getSimpleName := "DefaultWarning" |} ], S j).

Definition json_loads (text : string) : string + pyvalue :=
  if String.eqb text "{}" then inr (PyDict [])
  else inl "Expecting value: line 1 column 1 (char 0)".

Definition start_jvm (jar : option string) (j : JVM)
  : (string + unit) * JVM := (inr tt, S j).

Definition load_classes (j : JVM) : (string + unit) * JVM := (inr tt, S j).

(** A document whose only criterion refers to concept set 99 while no
    concept set is declared. *)
Definition dangling_reference_document : pyvalue :=
  PyDict
    [("ConceptSets", PyList []);
     ("PrimaryCriteria",
      PyDict
        [("CriteriaList",
          PyList [PyDict [("ConditionOccurrence",
                           PyDict [("CodesetId", PyInt 99)])]])])].

(** a world holding that document as object 0, an empty dict as
    object 1, a str as object 2 and a set as object 3, and the file
    [cohort.json] with the text of an empty JSON object *)
Definition world0 : @world JVM CohortExpression :=
  World (<[0 := dangling_reference_document]>
           (<[1 := PyDict []]>
              (<[2 := PyStr "{}"]> (<[3 := PyOther "set"]> ∅))))
        (<["cohort.json" := FText "{}"]>
           (<["locked.json" := FUnreadable "[Errno 13] Permission denied"]>
              ∅))
        0 [] [] [].

Definition args0 : cli_args :=
  {| input_file := "cohort.json"; output := None; format := FormatText;
     jar_path := None; deps_path := None |}.

End Toy.

(** ** [cohort_validator.py] run as a program

    [CohortValidator.shutdown] and the module's own [main], the one the
    [if __name__ == "__main__"] line runs.  It differs from [cli.main]:
    it validates through [validate_cohort_file], prints to the standard
    output only, and ends without a call of [sys.exit]. *)

Module Script.
Section Script.

Context {JVM CohortExpression : Type}.
Variable fromJson : string -> JVM -> (string + CohortExpression) * JVM.
Variable check :
  CohortExpression -> JVM -> (string + list JavaWarning) * JVM.
Variable start_jvm : option string -> JVM -> (string + unit) * JVM.
Variable load_classes : JVM -> (string + unit) * JVM.

(** [jpype.isJVMStarted()] and [jpype.shutdownJVM()] *)
Variable isJVMStarted : JVM -> bool.
Variable shutdownJVM : JVM -> (string + unit) * JVM.

Notation "x <- m ;; k" := (bind m (fun x => k))
  (at level 100, m at next level, right associativity).

(** [try: body finally: finalizer]: the finalizer runs whatever the body
    did; what the body returned or raised stands, unless the finalizer
    raises itself. *)
Definition try_finally {A} (body : M A) (finalizer : M unit)
  : @M JVM CohortExpression A :=
  fun w =>
    let '(r, w') := body w in
    match finalizer w' with
    | (Ok _, w'') => (r, w'')
    | (Raise e, w'') => (Raise e, w'')
    end.

(** [CohortValidator.shutdown].  The flag [_jvm_started] it clears is read
    by [_start_jvm] only, in a constructor that has just set it. *)
Definition shutdown : @M JVM CohortExpression unit :=
  fun w =>
    if isJVMStarted (jvm w)
    then jvm_step shutdownJVM (Exn JavaException) w
    else (Ok tt, w).

(** [d[key]] *)
Fixpoint dict_getitem (d : finding) (key : string) : option string :=
  match d with
  | [] => None
  | (k, v) :: rest => if String.eqb k key then Some v else dict_getitem rest key
  end.

(** [d[key]] in the program: a missing key raises [KeyError], whose text
    is the key between single quotes.  [KeyError] is a class that no
    handler of the program names; it is recorded under [RuntimeError],
    which no handler names either. *)
Definition getitem (d : finding) (key : string)
  : @M JVM CohortExpression string :=
  match dict_getitem d key with
  | Some v => ret v
  | None => raise (Exn RuntimeError ("'" ++ key ++ "'"))
  end.

(** [for i, item in enumerate(items, i): print(...)] *)
Fixpoint print_findings (i : nat) (items : list finding)
  : @M JVM CohortExpression unit :=
  match items with
  | [] => ret tt
  | item :: rest =>
      severity <- getitem item "severity" ;;
      message <- getitem item "message" ;;
      _ <- print_stdout ("  " ++ Str.of_nat i ++ ". [" ++ severity ++ "] "
                         ++ message) ;;
      print_findings (S i) rest
  end.

(** [if items: print(title); for ...] *)
Definition print_block (title : string) (items : list finding)
  : @M JVM CohortExpression unit :=
  match items with
  | [] => ret tt
  | _ => _ <- print_stdout (Str.newline ++ title) ;; print_findings 1 items
  end.

(** the statements of the [try] body after [validator = CohortValidator()] *)
Definition validate_and_print (file_path : string)
  : @M JVM CohortExpression unit :=
  r <- validate_cohort_file fromJson check file_path ;;
  let warnings := fst r in
  let errors := snd r in
  _ <- print_stdout ("Validation Results for " ++ file_path ++ ":") ;;
  _ <- print_stdout ("Warnings: " ++ Str.of_nat (length warnings)) ;;
  _ <- print_stdout ("Errors: " ++ Str.of_nat (length errors)) ;;
  _ <- print_block "Warnings:" warnings ;;
  _ <- print_block "Errors:" errors ;;
  match warnings, errors with
  | [], [] => print_stdout (Str.newline ++ "No validation issues found!")
  | _, _ => ret tt
  end.

(** the [except Exception as e] clause: it prints to the standard output *)
Definition handlers : list (@clause JVM CohortExpression unit) :=
  [ (is_Exception,
     fun e => _ <- print_stdout ("Error: " ++ exn_str e) ;; sys_exit 1) ].

(** [main()], on [sys.argv].  The local [validator] is bound exactly when
    the constructor, the first statement of the [try] body, returned; the
    [finally] clause shuts down in that case only. *)
Definition main (argv : list string) : @M JVM CohortExpression unit :=
  match argv with
  | [_; file_path] =>
      fun w =>
        match CohortValidator_init start_jvm load_classes None w with
        | (Raise e, w1) => try_finally (dispatch handlers e) (ret tt) w1
        | (Ok _, w1) =>
            try_finally (try_except (validate_and_print file_path) handlers)
                        shutdown w1
        end
  | _ =>
      _ <- print_stdout "Usage: python cohort_validator.py <cohort_json_file>" ;;
      sys_exit 1
  end.

End Script.
End Script.

(** ** Vocabulary for further properties *)

(** no part of the value is an object [json.dumps] refuses *)
Fixpoint serialisable (o : pyvalue) : bool :=
  match o with
  | PyOther _ => false
  | PyList items =>
      (fix all (l : list pyvalue) : bool :=
         match l with
         | [] => true
         | x :: r => serialisable x && all r
         end) items
  | PyDict items =>
      (fix all (l : list (string * pyvalue)) : bool :=
         match l with
         | [] => true
         | (_, x) :: r => serialisable x && all r
         end) items
  | _ => true
  end.

(** the two loops of [Json.encode], over the items of a list and of a dict *)
Definition encode_list_items (indent : option nat) (level : nat)
  : list pyvalue -> string + list string :=
  fix each (l : list pyvalue) : string + list string :=
    match l with
    | [] => inr []
    | x :: r =>
        match Json.encode indent (S level) x with
        | inl e => inl e
        | inr s =>
            match each r with
            | inl e => inl e
            | inr ss => inr (s :: ss)
            end
        end
    end.

Definition encode_dict_items (indent : option nat) (level : nat)
  : list (string * pyvalue) -> string + list string :=
  fix each (l : list (string * pyvalue)) : string + list string :=
    match l with
    | [] => inr []
    | (k, x) :: r =>
        match Json.encode indent (S level) x with
        | inl e => inl e
        | inr s =>
            match each r with
            | inl e => inl e
            | inr ss =>
                inr ((Json.encode_basestring_ascii k ++ Json.key_separator
                      ++ s) :: ss)
            end
        end
    end.

(** the outcome of [Json.encode], by [serialisable] *)
Definition encode_outcome {A} (serialisable_all : bool) (r : string + A)
  : Prop :=
  if serialisable_all then exists a, r = inr a
  else exists t, r = inl (Json.not_serializable t).

(** a parser that takes no JSON string for a cohort expression: it throws
    on every document that starts with a double quote *)
Definition rejects_string_literals {JVM CohortExpression : Type}
  (fromJson : string -> JVM -> (string + CohortExpression) * JVM) : Prop :=
  forall rest j,
  exists thrown, fst (fromJson (String (ascii_of_N 34) rest) j) = inl thrown.

(** an optional string argument as the programs' [if x:] tests see it *)
Definition drop_empty (x : option string) : option string :=
  if given x then x else None.

(** the arguments with every empty string taken for an absent option *)
Definition effective_args (args : cli_args) : cli_args :=
  {| input_file := input_file args;
     output := drop_empty (output args);
     format := format args;
     jar_path := drop_empty (jar_path args);
     deps_path := drop_empty (deps_path args) |}.

(** the world after some lines were printed to the standard output *)
Definition printed {JVM CohortExpression : Type}
  (w : @world JVM CohortExpression) (lines : list string)
  : @world JVM CohortExpression :=
  World (py_objs w) (files w) (jvm w) (jcalls w)
        (app (stdout w) lines) (stderr w).

(** a finding with the three keys the wrapper writes, in its order *)
Definition has_three_keys (f : finding) : Prop :=
  map fst f = ["message"; "severity"; "type"].

(** the line of the text report for the finding at position [i] *)
Definition report_line (i : nat) (item : finding) : string :=
  Str.of_nat i ++ ". [" ++ dict_get item "severity" "UNKNOWN" ++ "] "
  ++ dict_get item "message" "No message".

(** the list [lines] that [format_text_output] joins *)
Definition format_text_lines (result : cli_result) : list string :=
  app [ "Validation Results for: " ++ result_input_file result;
        Str.repeat "=" 50;
        "Total Warnings: " ++ Str.of_nat (total_warnings (summary result));
        "Total Errors: " ++ Str.of_nat (total_errors (summary result));
        "Valid: " ++ (if is_valid (summary result) then "Yes" else "No");
        EmptyString ]
      (app (block "WARNINGS:" (result_warnings result))
           (block "ERRORS:" (result_errors result))).

(** a JVM that runs until it is shut down; once it is shut down, every
    Java call raises, as JPype's calls do *)
Module Stoppable.

Definition JVM : Type := bool.
Definition CohortExpression : Type := string.

Definition not_running : string := "Java Virtual Machine is not running".

Definition fromJson (document : string) (running : JVM)
  : (string + CohortExpression) * JVM :=
  if running
  then (if Toy.starts_with_brace document then inr document
        else inl "MismatchedInputException: cannot construct CohortExpression",
        running)
  else (inl not_running, running).

Definition check (e : CohortExpression) (running : JVM)
  : (string + list JavaWarning) * JVM :=
  if running then (inr [], running) else (inl not_running, running).

Definition isJVMStarted (running : JVM) : bool := running.

Definition shutdownJVM (running : JVM) : (string + unit) * JVM :=
  (inr tt, false).

(** a running JVM and an empty dict as object 1 *)
Definition world0 : @world JVM CohortExpression :=
  World (<[1 := PyDict []]> ∅) ∅ true [] [] [].

End Stoppable.

(** a JVM for the small Java side that is running and shuts down cleanly *)
Module ToyJVM.

Definition isJVMStarted (j : Toy.JVM) : bool := true.
Definition shutdownJVM (j : Toy.JVM) : (string + unit) * Toy.JVM :=
  (inr tt, 0).

(** command lines: a deps-path, an input file that does not exist *)
Definition deps_path_args : cli_args :=
  {| input_file := "cohort.json"; output := None; format := FormatJson;
     jar_path := None; deps_path := Some "target/dependencies" |}.

Definition missing_input_args : cli_args :=
  {| input_file := "missing.json"; output := None; format := FormatJson;
     jar_path := None; deps_path := None |}.

(** the world with one more file, whose text is no JSON document *)
Definition world_with_broken_file : @world Toy.JVM Toy.CohortExpression :=
  set_files Toy.world0 (<["broken.json" := FText "{"]> (files Toy.world0)).

Definition broken_input_args : cli_args :=
  {| input_file := "broken.json"; output := None; format := FormatJson;
     jar_path := None; deps_path := None |}.

(** a checker that throws *)
Definition throwing_check (e : Toy.CohortExpression) (j : Toy.JVM)
  : (string + list JavaWarning) * Toy.JVM :=
  (inl "java.lang.NullPointerException", S j).

(** a class loader that fails *)
Definition failing_load_classes (j : Toy.JVM) : (string + unit) * Toy.JVM :=
  (inl "No module named 'org'", S j).

End ToyJVM.

(** * Properties *)

Example dumps_object :
  Json.dumps (PyDict [("a", PyList [PyInt 1; PyBool true; PyNone]);
                      ("b", PyStr "x")])
  = inr ("{" ++ Str.dquote ++ "a" ++ Str.dquote ++ ": [1, true, null], "
         ++ Str.dquote ++ "b" ++ Str.dquote ++ ": " ++ Str.dquote ++ "x"
         ++ Str.dquote ++ "}").
Proof. reflexivity. Qed.

Section Properties.

Context {JVM CohortExpression : Type}.
Variable fromJson : string -> JVM -> (string + CohortExpression) * JVM.
Variable check :
  CohortExpression -> JVM -> (string + list JavaWarning) * JVM.
Variable json_loads : string -> string + pyvalue.
Variable start_jvm : option string -> JVM -> (string + unit) * JVM.
Variable load_classes : JVM -> (string + unit) * JVM.

(** case analysis on the steps of a run recorded in [H] *)
Ltac split_steps H :=
  repeat match type of H with
         | context [match ?X with _ => _ end] =>
             lazymatch X with
             | context [match _ with _ => _ end] => fail
             | _ => destruct X eqn:?
             end
         | context [if ?X then _ else _] =>
             lazymatch X with
             | context [if _ then _ else _] => fail
             | _ => destruct X eqn:?
             end
         end.

(** two runs from the same world are the same run *)
Ltac same_run :=
  simplify_eq;
  repeat match goal with
         | H1 : ?x = _, H2 : ?x = _ |- _ => rewrite H1 in H2; simplify_eq
         end;
  try done.

(** unfolding the wrapper's functions, by their own names *)
Ltac open_validate_cohort := unfold validate_cohort.
Ltac open_validate_cohort_file := unfold validate_cohort_file.
Ltac open_main := unfold main.
Ltac open_main_prepare := unfold main_prepare.
Ltac open_main_report := unfold main_report.
Ltac open_main_prepare_in H := unfold main_prepare in H.
Ltac open_main_report_in H := unfold main_report in H.

Abbreviation world := (@world JVM CohortExpression).
Abbreviation validate_cohort := (validate_cohort fromJson check).
Abbreviation validate_cohort_file := (validate_cohort_file fromJson check).
Abbreviation checker_reports := (checker_reports fromJson check).
Abbreviation ingestion_fails := (ingestion_fails fromJson).
Abbreviation main :=
  (main fromJson check json_loads start_jvm load_classes).
Abbreviation main_prepare :=
  (@main_prepare JVM CohortExpression json_loads start_jvm load_classes).
Abbreviation main_report := (@main_report JVM CohortExpression).

(** ** The loop *)

Lemma convert_warnings_acc java_warnings : forall warnings errors,
  convert_warnings java_warnings warnings errors
  = ((warnings ++ map warning_dict
                      (List.filter (fun jw => negb (reported_as_error jw))
                              java_warnings))%list,
     (errors ++ map warning_dict
                    (List.filter reported_as_error java_warnings))%list).
Proof.
  induction java_warnings as [|jw rest IH]; intros warnings errors.
  - cbn. by rewrite !app_nil_r.
  - cbn [convert_warnings List.filter].
    change (is_error_severity (severity_text jw))
      with (reported_as_error jw).
    destruct (reported_as_error jw) eqn:E; rewrite IH; cbn [negb map];
      rewrite <- app_assoc; reflexivity.
Qed.

Lemma is_error_severity_spec severity :
  is_error_severity severity = true
  <-> Str.upper severity = "ERROR" \/ Str.upper severity = "CRITICAL".
Proof.
  unfold is_error_severity, Str.mem. cbn [existsb].
  rewrite !orb_true_iff, !String.eqb_eq.
  split.
  - intros [H | [H | H]]; [by right | by left | discriminate].
  - intros [H | H]; [right; by left | by left].
Qed.

Lemma warning_dict_severity jw jw' :
  warning_dict jw = warning_dict jw' -> severity_text jw = severity_text jw'.
Proof. unfold warning_dict. congruence. Qed.

Lemma in_errors_iff java_warnings jw :
  In jw java_warnings ->
  (In (warning_dict jw)
      (map warning_dict (List.filter reported_as_error java_warnings))
   <-> reported_as_error jw = true).
Proof.
  intros Hin. rewrite in_map_iff. split.
  - intros (jw' & Heq & Hf). apply filter_In in Hf as [_ Hf].
    unfold reported_as_error in *.
    by rewrite <- (warning_dict_severity _ _ Heq).
  - intros H. exists jw. split; [done|]. apply filter_In. done.
Qed.

Lemma in_warnings_iff java_warnings jw :
  In jw java_warnings ->
  (In (warning_dict jw)
      (map warning_dict
           (List.filter (fun x => negb (reported_as_error x)) java_warnings))
   <-> reported_as_error jw = false).
Proof.
  intros Hin. rewrite in_map_iff. split.
  - intros (jw' & Heq & Hf). apply filter_In in Hf as [_ Hf].
    unfold reported_as_error in *.
    rewrite <- (warning_dict_severity _ _ Heq).
    by apply negb_true_iff.
  - intros H. exists jw. split; [done|]. apply filter_In.
    split; [done|]. by apply negb_true_iff.
Qed.

(** ** [validate_cohort], case by case *)

Lemma validate_cohort_run (cohort_json : loc) (w : world) :
  validate_cohort cohort_json w =
  match py_objs w !! cohort_json with
  | None => (Ok (validation_error "unbound reference"), w)
  | Some v =>
      match Json.dumps v with
      | inl message => (Ok (validation_error message), w)
      | inr document =>
          let w1 := after_jcall w (snd (fromJson document (jvm w)))
                                (CallFromJson document) in
          match fst (fromJson document (jvm w)) with
          | inl thrown => (Ok (validation_error thrown), w1)
          | inr expression =>
              let w2 := after_jcall w1 (snd (check expression (jvm w1)))
                                    (CallCheck expression) in
              match fst (check expression (jvm w1)) with
              | inl thrown => (Ok (validation_error thrown), w2)
              | inr java_warnings =>
                  (Ok (convert_warnings java_warnings [] []), w2)
              end
          end
      end
  end.
Proof.
  open_validate_cohort. unfold try_except, bind, json_dumps, bind, load.
  destruct (py_objs w !! cohort_json) as [v|]; [|reflexivity].
  destruct (Json.dumps v) as [message|document]; [reflexivity|].
  unfold ret at 1. unfold call_fromJson.
  destruct (fromJson document (jvm w)) as [[thrown|expression] j];
    [reflexivity|].
  unfold call_check. cbn [fst snd jvm after_jcall].
  destruct (check expression j) as [[thrown|java_warnings] j2];
    reflexivity.
Qed.

Lemma validate_cohort_reports cohort_json (w : world) java_warnings :
  checker_reports cohort_json w java_warnings ->
  exists w',
    validate_cohort cohort_json w
    = (Ok (map warning_dict
               (List.filter (fun jw => negb (reported_as_error jw))
                            java_warnings),
           map warning_dict (List.filter reported_as_error java_warnings)),
       w').
Proof.
  intros (v & document & expression & j1 & j2 & Hv & Hd & Hf & Hc).
  rewrite validate_cohort_run, Hv, Hd, Hf. cbn [fst snd jvm after_jcall].
  rewrite Hc. cbn [fst snd]. rewrite convert_warnings_acc.
  eexists. reflexivity.
Qed.

Lemma partition_permutation java_warnings :
  Permutation
    (map warning_dict
         (List.filter (fun jw => negb (reported_as_error jw)) java_warnings)
     ++ map warning_dict (List.filter reported_as_error java_warnings))%list
    (map warning_dict java_warnings).
Proof.
  induction java_warnings as [|jw rest IH]; [constructor|].
  cbn [List.filter map]. destruct (reported_as_error jw); cbn [negb map].
  - symmetry. apply Permutation_cons_app. by symmetry.
  - cbn. by constructor.
Qed.

(** ** Classification of the checker's findings *)

(** C1: when the checker returns a sequence of findings, validate_cohort
    returns them split in two lists, in order: a finding is in errors
    exactly when its severity text, uppercased, is ERROR or CRITICAL; a
    finding of severity INFO or WARNING is in warnings; the verdict
    is_valid of the command line is true exactly when errors is empty;
    and the split is the value of the total function convert_warnings,
    so it cannot fail. *)
Theorem validate_cohort_partition
        cohort_json (w : world) java_warnings input_path :
  checker_reports cohort_json w java_warnings ->
  exists warnings errors w',
    validate_cohort cohort_json w = (Ok (warnings, errors), w')
    /\ convert_warnings java_warnings [] [] = (warnings, errors)
    /\ warnings = map warning_dict
                     (List.filter (fun jw => negb (reported_as_error jw))
                                  java_warnings)
    /\ errors = map warning_dict
                   (List.filter reported_as_error java_warnings)
    /\ (forall jw, In jw java_warnings ->
           (In (warning_dict jw) errors
            <-> Str.upper (severity_text jw) = "ERROR"
                \/ Str.upper (severity_text jw) = "CRITICAL"))
    /\ (forall jw, In jw java_warnings ->
           severity_text jw = "INFO" \/ severity_text jw = "WARNING" ->
           In (warning_dict jw) warnings)
    /\ (is_valid (summary (make_result input_path warnings errors)) = true
        <-> errors = []).
Proof.
  intros Hrep. destruct (validate_cohort_reports _ _ _ Hrep) as [w' Hrun].
  eexists _, _, w'. split; [exact Hrun|].
  split; [by rewrite convert_warnings_acc|].
  split; [reflexivity|]. split; [reflexivity|].
  split; [|split].
  - intros jw Hin. rewrite (in_errors_iff _ _ Hin).
    apply is_error_severity_spec.
  - intros jw Hin Hsev. apply (in_warnings_iff _ _ Hin).
    unfold reported_as_error. destruct Hsev as [-> | ->]; reflexivity.
  - cbn [is_valid summary make_result]. rewrite Nat.eqb_eq.
    apply length_zero_iff_nil.
Qed.

(** C9: a finding whose severity text, uppercased, is neither CRITICAL
    nor ERROR goes to warnings and not to errors; a finding without a
    severity accessor carries the severity UNKNOWN and is such a
    finding; no finding is in both lists, and the two lists together
    hold the checker's findings, each as often as the checker gave
    it. *)
Theorem non_error_findings_are_warnings
        cohort_json (w : world) java_warnings :
  checker_reports cohort_json w java_warnings ->
  exists warnings errors w',
    validate_cohort cohort_json w = (Ok (warnings, errors), w')
    /\ (forall jw, In jw java_warnings ->
           Str.upper (severity_text jw) <> "CRITICAL" ->
           Str.upper (severity_text jw) <> "ERROR" ->
           In (warning_dict jw) warnings /\ ~ In (warning_dict jw) errors)
    /\ (forall jw, In jw java_warnings ->
           getSeverity jw = None ->
           dict_get (warning_dict jw) "severity" EmptyString = "UNKNOWN"
           /\ In (warning_dict jw) warnings
           /\ ~ In (warning_dict jw) errors)
    /\ (forall f, ~ (In f warnings /\ In f errors))
    /\ Permutation (warnings ++ errors)%list
                   (map warning_dict java_warnings).
Proof.
  intros Hrep. destruct (validate_cohort_reports _ _ _ Hrep) as [w' Hrun].
  eexists _, _, w'. split; [exact Hrun|].
  assert (Hnon : forall jw, In jw java_warnings ->
                   reported_as_error jw = false ->
                   In (warning_dict jw)
                      (map warning_dict
                         (List.filter
                            (fun x => negb (reported_as_error x))
                            java_warnings))
                   /\ ~ In (warning_dict jw)
                          (map warning_dict
                             (List.filter reported_as_error
                                          java_warnings))).
  { intros jw Hin Hno. split.
    - by apply in_warnings_iff.
    - rewrite (in_errors_iff _ _ Hin). congruence. }
  split; [|split; [|split]].
  - intros jw Hin Hc He. apply Hnon; [done|].
    apply not_true_is_false. unfold reported_as_error.
    rewrite is_error_severity_spec. tauto.
  - intros jw Hin Hnone.
    assert (Hs : severity_text jw = "UNKNOWN")
      by (unfold severity_text; by rewrite Hnone).
    split; [cbn; exact Hs|]. apply Hnon; [done|].
    unfold reported_as_error. by rewrite Hs.
  - intros f [Hw He]. apply in_map_iff in Hw as (a & <- & Ha).
    apply in_map_iff in He as (b & Hb & Hfb).
    apply filter_In in Ha as [_ Ha]. apply filter_In in Hfb as [_ Hfb].
    apply negb_true_iff in Ha. unfold reported_as_error in *.
    rewrite (warning_dict_severity _ _ Hb) in Hfb. congruence.
  - apply partition_permutation.
Qed.

(** ** Failures of ingestion and totality *)

Lemma critical_fields message type :
  dict_get (critical message type) "severity" EmptyString = "CRITICAL"
  /\ dict_get (critical message type) "type" EmptyString = type
  /\ dict_get (critical message type) "message" EmptyString = message.
Proof. repeat split. Qed.

(** C2: when the input cannot be turned into an expression (it does not
    serialise, or fromJson throws on the document), validate_cohort
    returns no warnings and exactly one error, of severity CRITICAL and
    of type VALIDATION_ERROR (so of type PARSE_ERROR or
    VALIDATION_ERROR), and the checker is not called: the calls made
    into the JVM contain no call of check. *)
Theorem malformed_document_short_circuits cohort_json (w : world) :
  ingestion_fails cohort_json w ->
  exists warnings errors w' text calls,
    validate_cohort cohort_json w = (Ok (warnings, errors), w')
    /\ warnings = []
    /\ errors = [critical ("Validation error: " ++ text) "VALIDATION_ERROR"]
    /\ (forall f, In f errors ->
           dict_get f "severity" EmptyString = "CRITICAL"
           /\ (dict_get f "type" EmptyString = "PARSE_ERROR"
               \/ dict_get f "type" EmptyString = "VALIDATION_ERROR"))
    /\ jcalls w' = (jcalls w ++ calls)%list
    /\ (forall expression, ~ In (CallCheck expression) calls).
Proof.
  assert (Hone : forall text f,
             In f [critical ("Validation error: " ++ text)
                            "VALIDATION_ERROR"] ->
             dict_get f "severity" EmptyString = "CRITICAL"
             /\ (dict_get f "type" EmptyString = "PARSE_ERROR"
                 \/ dict_get f "type" EmptyString = "VALIDATION_ERROR")).
  { intros text f [<- | []]. split; [reflexivity | right; reflexivity]. }
  intros [(v & message & Hv & Hd)
         | (v & document & thrown & j & Hv & Hd & Hf)];
    rewrite validate_cohort_run, Hv, Hd.
  - exists [], [critical ("Validation error: " ++ message)
                         "VALIDATION_ERROR"], w, message, [].
    split; [reflexivity|]. split; [reflexivity|]. split; [reflexivity|].
    split; [apply Hone|]. split; [by rewrite app_nil_r|].
    intros expression [].
  - rewrite Hf. cbn [fst snd].
    eexists [], _, _, thrown, [CallFromJson document].
    split; [reflexivity|]. split; [reflexivity|]. split; [reflexivity|].
    split; [apply Hone|]. split; [reflexivity|].
    intros expression [H | []]. discriminate.
Qed.

Lemma validate_cohort_cases cohort_json (w : world) :
  exists warnings errors w',
    validate_cohort cohort_json w = (Ok (warnings, errors), w')
    /\ ((exists java_warnings,
            checker_reports cohort_json w java_warnings
            /\ Permutation (warnings ++ errors)%list
                           (map warning_dict java_warnings))
        \/ (exists text, (warnings, errors) = validation_error text)).
Proof.
  rewrite validate_cohort_run.
  destruct (py_objs w !! cohort_json) as [v|] eqn:Hv;
    [|by eexists [], _, _; split; [reflexivity | right; eexists]].
  destruct (Json.dumps v) as [message|document] eqn:Hd;
    [by eexists [], _, _; split; [reflexivity | right; eexists]|].
  destruct (fromJson document (jvm w)) as [[thrown|expression] j1] eqn:Hf;
    cbn [fst snd jvm after_jcall];
    [by eexists [], _, _; split; [reflexivity | right; eexists]|].
  destruct (check expression j1) as [[thrown|java_warnings] j2] eqn:Hc;
    cbn [fst snd];
    [by eexists [], _, _; split; [reflexivity | right; eexists]|].
  rewrite convert_warnings_acc. cbn [app].
  eexists _, _, _. split; [reflexivity|]. left. exists java_warnings.
  split; [|apply partition_permutation].
  exists v, document, expression, j1, j2. done.
Qed.

Lemma validate_cohort_frame cohort_json (w : world) :
  py_objs (snd (validate_cohort cohort_json w)) = py_objs w
  /\ files (snd (validate_cohort cohort_json w)) = files w.
Proof.
  rewrite validate_cohort_run.
  destruct (py_objs w !! cohort_json) as [v|]; [|done].
  destruct (Json.dumps v) as [message|document]; [done|].
  destruct (fromJson document (jvm w)) as [[thrown|expression] j1];
    cbn [fst snd jvm after_jcall]; [done|].
  destruct (check expression j1) as [[thrown|java_warnings] j2]; done.
Qed.

(** C6: validate_cohort leaves every Python object as it was: the store
    of objects after the call is the store before it, so the object
    passed in is equal before and after; the file system is untouched
    too. *)
Theorem validate_cohort_preserves_input cohort_json (w : world) :
  py_objs (snd (validate_cohort cohort_json w)) = py_objs w
  /\ py_objs (snd (validate_cohort cohort_json w)) !! cohort_json
     = py_objs w !! cohort_json
  /\ files (snd (validate_cohort cohort_json w)) = files w.
Proof.
  destruct (validate_cohort_frame cohort_json w) as [H1 H2].
  rewrite H1. done.
Qed.



(** ** Validation of a file *)

Lemma validate_cohort_file_run file_path (w : world) :
  validate_cohort_file file_path w =
  match files w !! file_path with
  | None =>
      (Ok ([], [critical ("File not found: " ++ file_path) "FILE_ERROR"]),
       w)
  | Some (FUnreadable reason) =>
      (Ok ([], [critical ("File read error: " ++ reason) "FILE_ERROR"]), w)
  | Some (FText text) =>
      let raw := fresh (dom (py_objs w)) in
      validate_cohort raw (set_py_objs w (<[raw := PyStr text]> (py_objs w)))
  end.
Proof.
  open_validate_cohort_file. unfold try_except, bind, read_text.
  destruct (files w !! file_path) as [[text|reason]|]; [|reflexivity..].
  unfold new_object. cbn zeta.
  destruct (validate_cohort_cases
              (fresh (dom (py_objs w)))
              (set_py_objs w (<[fresh (dom (py_objs w)) := PyStr text]>
                                (py_objs w))))
    as (warnings & errors & w' & -> & _).
  reflexivity.
Qed.

(** C10: validate_cohort_file returns normally for every path; when the
    file does not exist, or opening or reading it fails, it returns no
    warning and exactly one error, of severity CRITICAL and of type
    FILE_ERROR. *)
Theorem validate_cohort_file_returns file_path (w : world) :
  exists warnings errors w',
    validate_cohort_file file_path w = (Ok (warnings, errors), w')
    /\ ((files w !! file_path = None
         \/ exists reason, files w !! file_path = Some (FUnreadable reason))
        -> warnings = []
           /\ exists f, errors = [f]
                        /\ dict_get f "severity" EmptyString = "CRITICAL"
                        /\ dict_get f "type" EmptyString = "FILE_ERROR").
Proof.
  rewrite validate_cohort_file_run.
  destruct (files w !! file_path) as [[text|reason]|] eqn:Hfile.
  - cbn zeta.
    destruct (validate_cohort_cases
                (fresh (dom (py_objs w)))
                (set_py_objs w (<[fresh (dom (py_objs w)) := PyStr text]>
                                  (py_objs w))))
      as (warnings & errors & w' & -> & _).
    exists warnings, errors, w'. split; [reflexivity|].
    intros [H | [reason H]]; discriminate.
  - eexists [], _, w. split; [reflexivity|]. intros _.
    split; [reflexivity|]. eexists. split; [reflexivity|]. by split.
  - eexists [], _, w. split; [reflexivity|]. intros _.
    split; [reflexivity|]. eexists. split; [reflexivity|]. by split.
Qed.

Lemma dumps_str text :
  Json.dumps (PyStr text) = inr (Json.encode_basestring_ascii text).
Proof. reflexivity. Qed.

Lemma dumps_dict_not_a_string_literal items text :
  Json.dumps (PyDict items) <> Json.dumps (PyStr text).
Proof.
  rewrite dumps_str. unfold Json.dumps, Json.encode_basestring_ascii.
  destruct items as [|[k x] rest]; cbn; [discriminate|].
  repeat match goal with
         | |- context [match ?X with _ => _ end] => destruct X
         end; discriminate.
Qed.

Lemma dumps_list_not_a_string_literal items text :
  Json.dumps (PyList items) <> Json.dumps (PyStr text).
Proof.
  rewrite dumps_str. unfold Json.dumps, Json.encode_basestring_ascii.
  destruct items as [|x rest]; cbn; [discriminate|].
  repeat match goal with
         | |- context [match ?X with _ => _ end] => destruct X
         end; discriminate.
Qed.

(** C8: for a readable file, validate_cohort_file does what
    validate_cohort does on a new str object holding the raw text of
    the file; json.dumps of that object is the JSON string literal of
    the text, and that literal is the document handed to fromJson; it
    is never the document json.dumps makes of a dict or a list, so
    never the one validate_cohort hands over for a parsed JSON object
    or array. *)
Theorem validate_cohort_file_passes_raw_text file_path text (w : world) :
  files w !! file_path = Some (FText text) ->
  let raw := fresh (dom (py_objs w)) in
  let w_raw := set_py_objs w (<[raw := PyStr text]> (py_objs w)) in
  py_objs w !! raw = None
  /\ py_objs w_raw !! raw = Some (PyStr text)
  /\ validate_cohort_file file_path w = validate_cohort raw w_raw
  /\ Json.dumps (PyStr text) = inr (Json.encode_basestring_ascii text)
  /\ (exists calls,
        jcalls (snd (validate_cohort_file file_path w))
        = (jcalls w
           ++ CallFromJson (Json.encode_basestring_ascii text) :: calls)%list)
  /\ (forall items, Json.dumps (PyDict items) <> Json.dumps (PyStr text))
  /\ (forall items, Json.dumps (PyList items) <> Json.dumps (PyStr text)).
Proof.
  intros Hfile raw w_raw.
  assert (Hraw : py_objs w_raw !! raw = Some (PyStr text))
    by apply lookup_insert_eq.
  assert (Hrun : validate_cohort_file file_path w
                 = validate_cohort raw w_raw)
    by (by rewrite validate_cohort_file_run, Hfile).
  split; [apply not_elem_of_dom, is_fresh|].
  split; [exact Hraw|]. split; [exact Hrun|]. split; [reflexivity|].
  split; [|split; intros items;
           [apply dumps_dict_not_a_string_literal
           |apply dumps_list_not_a_string_literal]].
  rewrite Hrun, validate_cohort_run, Hraw, dumps_str.
  destruct (fromJson (Json.encode_basestring_ascii text) (jvm w_raw))
    as [[thrown|expression] j1]; cbn [fst snd jvm after_jcall jcalls].
  - by exists [].
  - destruct (check expression j1) as [[thrown|java_warnings] j2];
      cbn [fst snd]; exists [CallCheck expression];
      subst w_raw; cbn; by rewrite <- app_assoc.
Qed.

(** ** The command line *)

Lemma bind_assoc {A B C} (m : M A) (f : A -> M B) (g : B -> M C)
      (w : world) :
  bind (bind m f) g w = bind m (fun a => bind (f a) g) w.
Proof. unfold bind. by destruct (m w) as [[a|e] w']. Qed.

Lemma bind_ext {A B} (m : M A) (f g : A -> M B) (w : world) :
  (forall a w', f a w' = g a w') -> bind m f w = bind m g w.
Proof. intros H. unfold bind. destruct (m w) as [[a|e] w']; auto. Qed.

Lemma bind_ret {A B} (a : A) (g : A -> M B) (w : world) :
  bind (ret a) g w = g a w.
Proof. reflexivity. Qed.

Lemma try_except_ext {A} (m m' : M A) cs (w : world) :
  m w = m' w -> try_except m cs w = try_except m' cs w.
Proof. unfold try_except. by intros ->. Qed.

Lemma main_stages args (w : world) :
  main args w =
  try_except
    (bind (main_prepare args) (fun cohort_data =>
     bind (validate_cohort cohort_data) (fun r =>
     bind (main_report args (fst r) (snd r)) (fun _ =>
     sys_exit (if Nat.eqb (length (snd r)) 0 then 0 else 1)%Z))))
    main_handlers w.
Proof.
  open_main. apply try_except_ext. open_main_prepare.
  rewrite bind_assoc. apply bind_ext. intros found w1.
  rewrite bind_assoc. apply bind_ext. intros [] w2.
  rewrite bind_assoc. apply bind_ext. intros text w3.
  rewrite bind_assoc. apply bind_ext. intros cohort_data w4.
  rewrite bind_assoc. apply bind_ext. intros [] w5.
  rewrite bind_ret. apply bind_ext. intros r w6.
  open_main_report. rewrite bind_assoc. reflexivity.
Qed.

Lemma main_run args (w : world) :
  main args w =
  match main_prepare args w with
  | (Raise e, w1) => dispatch main_handlers e w1
  | (Ok cohort_data, w1) =>
      match validate_cohort cohort_data w1 with
      | (Raise e, w2) => dispatch main_handlers e w2
      | (Ok r, w2) =>
          match main_report args (fst r) (snd r) w2 with
          | (Raise e, w3) => dispatch main_handlers e w3
          | (Ok _, w3) =>
              (Raise (SystemExit
                        (if Nat.eqb (length (snd r)) 0 then 0 else 1)%Z),
               w3)
          end
      end
  end.
Proof.
  rewrite main_stages. unfold try_except, bind.
  destruct (main_prepare args w) as [[cohort_data|e] w1]; [|reflexivity].
  destruct (validate_cohort cohort_data w1) as [[r|e] w2]; [|reflexivity].
  destruct (main_report args (fst r) (snd r) w2) as [[[]|e] w3];
    reflexivity.
Qed.

Lemma main_prepare_raises args (w w1 : world) e :
  main_prepare args w = (Raise e, w1) ->
  e = SystemExit 1 \/ is_Exception e = true.
Proof.
  intros H. open_main_prepare_in H.
  unfold bind, path_exists, read_text, json_load,
    new_validator, CohortValidator_init, jvm_step, bind, new_object,
    print_stderr, sys_exit, raise, ret in H.
  split_steps H; inversion H; subst; auto.
Qed.

Lemma main_prepare_missing_file args (w : world) :
  files w !! input_file args = None ->
  exists w1, main_prepare args w = (Raise (SystemExit 1), w1).
Proof.
  intros Hnone.
  open_main_prepare. unfold bind, path_exists, print_stderr, sys_exit, raise.
  rewrite Hnone, bool_decide_eq_false_2; [by eexists|].
  by intros [x Hx].
Qed.

Lemma main_report_raises args warnings errors (w w1 : world) e :
  main_report args warnings errors w = (Raise e, w1) ->
  is_Exception e = true.
Proof.
  intros H. open_main_report_in H.
  unfold bind, render, write_text, print_stdout, raise, ret in H.
  split_steps H; inversion H; subst; auto.
Qed.

Lemma handled_status e (w : world) :
  exit_status (fst (dispatch main_handlers e w))
  = match e with SystemExit code => code | Exn _ _ => 1%Z end.
Proof. by destruct e. Qed.

(** C4: the process that runs main exits with status 0 or 1.  It exits
    with 0 exactly when the document was loaded, the validator was
    built, validate_cohort returned an empty errors list and the result
    was written out.  In every other case it exits with 1: when the
    input file is missing, when validation returns errors, and when
    loading, building or writing raises. *)
Theorem main_exit_status args (w : world) :
  let status := exit_status (fst (main args w)) in
  (status = 0 \/ status = 1)%Z
  /\ (status = 0%Z <->
      exists cohort_data w1 warnings w2 w3,
        main_prepare args w = (Ok cohort_data, w1)
        /\ validate_cohort cohort_data w1 = (Ok (warnings, []), w2)
        /\ main_report args warnings [] w2 = (Ok tt, w3))
  /\ (files w !! input_file args = None -> status = 1%Z)
  /\ (forall cohort_data w1 warnings errors w2,
        main_prepare args w = (Ok cohort_data, w1) ->
        validate_cohort cohort_data w1 = (Ok (warnings, errors), w2) ->
        errors <> [] -> status = 1%Z)
  /\ (forall e w1, main_prepare args w = (Raise e, w1) -> status = 1%Z)
  /\ (forall cohort_data w1 warnings errors w2 e w3,
        main_prepare args w = (Ok cohort_data, w1) ->
        validate_cohort cohort_data w1 = (Ok (warnings, errors), w2) ->
        main_report args warnings errors w2 = (Raise e, w3) ->
        status = 1%Z).
Proof.
  cbn zeta. rewrite main_run.
  destruct (main_prepare args w) as [[cohort_data|e] w1] eqn:Hprep.
  - destruct (validate_cohort_cases cohort_data w1)
      as (warnings & errors & w2 & Hval & _).
    rewrite Hval. cbn [fst snd].
    destruct (main_report args warnings errors w2) as [[[]|e] w3] eqn:Hrep.
    + cbn [fst exit_status]. destruct errors as [|f errors]; cbn.
      * split; [by left|]. split.
        { split; [|done]. intros _.
          by exists cohort_data, w1, warnings, w2, w3. }
        split; [intros Hnone;
                destruct (main_prepare_missing_file args w Hnone);
                congruence|].
        split; [|split]; intros; same_run.
      * split; [by right|]. split.
        { split; [done|].
          intros (? & ? & ? & ? & ? & ? & ? & ?). same_run. }
        split; [done|]. split; [done|]. split; intros; same_run.
    + rewrite handled_status.
      pose proof (main_report_raises _ _ _ _ _ _ Hrep) as He.
      destruct e; [|discriminate]. cbn.
      split; [by right|]. split.
      { split; [done|].
        intros (? & ? & ? & ? & ? & ? & ? & ?). same_run. }
      split; [done|]. split; [done|]. split; [intros; same_run|done].
  - rewrite handled_status.
    assert (Hone : match e with SystemExit code => code | Exn _ _ => 1%Z end
                   = 1%Z).
    { destruct (main_prepare_raises _ _ _ _ Hprep) as [-> | He];
        [done|]. by destruct e. }
    rewrite Hone. split; [by right|]. split.
    { split; [done|].
      intros (? & ? & ? & ? & ? & ? & ? & ?). same_run. }
    split; [done|]. split; [intros; same_run|].
    split; [done|]. intros; same_run.
Qed.

End Properties.

(** * The properties at work on the small Java side *)

Lemma sample_checker_reports :
  checker_reports Toy.fromJson Toy.sample_check 1 Toy.world0
                  Toy.sample_warnings.
Proof.
  exists (PyDict []), "{}", "{}", 1, 2. repeat split; reflexivity.
Defined.

Lemma validate_cohort_partition_witness :
  checker_reports Toy.fromJson Toy.sample_check 1 Toy.world0
                  Toy.sample_warnings
  /\ exists warnings errors w',
      validate_cohort Toy.fromJson Toy.sample_check 1 Toy.world0
      = (Ok (warnings, errors), w')
      /\ length warnings = 3 /\ length errors = 1.
Proof.
  split; [exact sample_checker_reports|].
  destruct (validate_cohort_partition
              Toy.fromJson Toy.sample_check 1 Toy.world0 Toy.sample_warnings
              "cohort.json" sample_checker_reports)
    as (warnings & errors & w' & Hrun & _ & -> & -> & _).
  eexists _, _, w'. split; [exact Hrun|]. split; reflexivity.
Defined.

Lemma non_error_findings_are_warnings_witness :
  checker_reports Toy.fromJson Toy.sample_check 1 Toy.world0
                  Toy.sample_warnings
  /\ exists warnings errors w',
      validate_cohort Toy.fromJson Toy.sample_check 1 Toy.world0
      = (Ok (warnings, errors), w')
      /\ Permutation (warnings ++ errors)%list
                     (map warning_dict Toy.sample_warnings).
Proof.
  split; [exact sample_checker_reports|].
  destruct (non_error_findings_are_warnings
              Toy.fromJson Toy.sample_check 1 Toy.world0 Toy.sample_warnings
              sample_checker_reports)
    as (warnings & errors & w' & Hrun & _ & _ & _ & Hperm).
  by exists warnings, errors, w'.
Defined.

Lemma malformed_document_short_circuits_witness :
  ingestion_fails Toy.fromJson 2 Toy.world0
  /\ exists warnings errors w',
      validate_cohort Toy.fromJson Toy.sample_check 2 Toy.world0
      = (Ok (warnings, errors), w')
      /\ warnings = [] /\ length errors = 1.
Proof.
  assert (H : ingestion_fails Toy.fromJson 2 Toy.world0).
  { right. eexists (PyStr "{}"), _, _, 1. repeat split; reflexivity. }
  split; [exact H|].
  destruct (malformed_document_short_circuits
              Toy.fromJson Toy.sample_check 2 Toy.world0 H)
    as (warnings & errors & w' & text & calls & Hrun & -> & -> & _).
  by eexists _, _, w'.
Defined.




(** Nor does it hold for a checker whose report depends on the state of
    the JVM. *)
Example repeatability_needs_functional_checker :
  fst (validate_cohort Toy.fromJson Toy.counting_check 1
         (snd (validate_cohort Toy.fromJson Toy.counting_check 1 Toy.world0)))
  <> fst (validate_cohort Toy.fromJson Toy.counting_check 1 Toy.world0).
Proof. vm_compute. discriminate. Qed.

Lemma validate_cohort_preserves_input_witness :
  py_objs (snd (validate_cohort Toy.fromJson Toy.sample_check 0 Toy.world0))
          !! 0
  = Some Toy.dangling_reference_document.
Proof.
  exact (eq_trans (proj1 (proj2 (validate_cohort_preserves_input
                                   Toy.fromJson Toy.sample_check 0
                                   Toy.world0)))
                  eq_refl).
Defined.


Lemma cohort_file_is_readable :
  files Toy.world0 !! "cohort.json" = Some (FText "{}").
Proof. reflexivity. Defined.

Lemma validate_cohort_file_passes_raw_text_witness :
  files Toy.world0 !! "cohort.json" = Some (FText "{}")
  /\ validate_cohort_file Toy.fromJson Toy.silent_check "cohort.json"
                          Toy.world0
     = validate_cohort Toy.fromJson Toy.silent_check
         (fresh (dom (py_objs Toy.world0)))
         (set_py_objs Toy.world0
            (<[fresh (dom (py_objs Toy.world0)) := PyStr "{}"]>
               (py_objs Toy.world0))).
Proof.
  split; [exact cohort_file_is_readable|].
  exact (proj1 (proj2 (proj2 (validate_cohort_file_passes_raw_text
                                Toy.fromJson Toy.silent_check
                                "cohort.json" "{}" Toy.world0
                                cohort_file_is_readable)))).
Defined.

(** The file holds the text of an empty JSON object.  Validating the file
    reports a failure of ingestion, validating the parsed object reports
    nothing. *)
Example file_and_parsed_document_differ :
  Toy.json_loads "{}" = inr (PyDict [])
  /\ py_objs Toy.world0 !! 1 = Some (PyDict [])
  /\ fst (validate_cohort Toy.fromJson Toy.silent_check 1 Toy.world0)
     = Ok ([], [])
  /\ fst (validate_cohort_file Toy.fromJson Toy.silent_check "cohort.json"
                               Toy.world0)
     = Ok (validation_error
             "MismatchedInputException: cannot construct CohortExpression").
Proof. repeat split; vm_compute; reflexivity. Qed.

Lemma validate_cohort_file_returns_witness :
  exists f,
    fst (validate_cohort_file Toy.fromJson Toy.silent_check "missing.json"
                              Toy.world0)
    = Ok ([], [f])
    /\ dict_get f "type" EmptyString = "FILE_ERROR".
Proof.
  destruct (validate_cohort_file_returns
              Toy.fromJson Toy.silent_check "missing.json" Toy.world0)
    as (warnings & errors & w' & Hrun & Hmissing).
  destruct (Hmissing (or_introl eq_refl)) as (-> & f & -> & _ & Htype).
  exists f. rewrite Hrun. split; [reflexivity | exact Htype].
Defined.

Lemma main_exit_status_witness :
  (exit_status
     (fst (main Toy.fromJson Toy.sample_check Toy.json_loads Toy.start_jvm
                Toy.load_classes Toy.args0 Toy.world0)) = 0
   \/ exit_status
        (fst (main Toy.fromJson Toy.sample_check Toy.json_loads Toy.start_jvm
                   Toy.load_classes Toy.args0 Toy.world0)) = 1)%Z.
Proof.
  exact (proj1 (main_exit_status
                  Toy.fromJson Toy.sample_check Toy.json_loads Toy.start_jvm
                  Toy.load_classes Toy.args0 Toy.world0)).
Defined.

Example main_exits_with_zero :
  exit_status
    (fst (main Toy.fromJson Toy.silent_check Toy.json_loads Toy.start_jvm
               Toy.load_classes Toy.args0 Toy.world0)) = 0%Z.
Proof. vm_compute. reflexivity. Qed.

Example main_exits_with_one_on_errors :
  exit_status
    (fst (main Toy.fromJson Toy.sample_check Toy.json_loads Toy.start_jvm
               Toy.load_classes Toy.args0 Toy.world0)) = 1%Z.
Proof. vm_compute. reflexivity. Qed.

(** * Further properties of the wrapper and of the two programs *)

(** case analysis on the steps of a run recorded in [H] *)
Ltac run_cases H :=
  repeat match type of H with
         | context [match ?X with _ => _ end] =>
             lazymatch X with
             | context [match _ with _ => _ end] => fail
             | _ => destruct X eqn:?
             end
         | context [if ?X then _ else _] =>
             lazymatch X with
             | context [if _ then _ else _] => fail
             | _ => destruct X eqn:?
             end
         end.

(** ** [json.dumps] fails on unserialisable parts only *)

Lemma pyvalue_nested_ind (P : pyvalue -> Prop) :
  P PyNone ->
  (forall b, P (PyBool b)) ->
  (forall z, P (PyInt z)) ->
  (forall r, P (PyFloat r)) ->
  (forall s, P (PyStr s)) ->
  (forall items, Forall P items -> P (PyList items)) ->
  (forall items, Forall (fun kv => P (snd kv)) items -> P (PyDict items)) ->
  (forall t, P (PyOther t)) ->
  forall v, P v.
Proof.
  intros HN HB HI HF HS HL HD HO. fix IH 1. intros [ |b|z|r|s|items|items|t].
  - exact HN.
  - apply HB.
  - apply HI.
  - apply HF.
  - apply HS.
  - apply HL. induction items as [|x rest IHitems]; constructor.
    + apply IH.
    + exact IHitems.
  - apply HD. induction items as [|[k x] rest IHitems]; constructor.
    + apply IH.
    + exact IHitems.
  - apply HO.
Qed.

Lemma serialisable_list items :
  serialisable (PyList items) = forallb serialisable items.
Proof. induction items as [|x r IH]; [reflexivity|]. cbn in *. by rewrite IH. Qed.

Lemma serialisable_dict items :
  serialisable (PyDict items)
  = forallb (fun kv => serialisable (snd kv)) items.
Proof.
  induction items as [|[k x] r IH]; [reflexivity|]. cbn in *. by rewrite IH.
Qed.

Lemma encode_list_unfold indent level items :
  Json.encode indent level (PyList items) =
  match items with
  | [] => inr "[]"
  | _ =>
      match encode_list_items indent level items with
      | inl e => inl e
      | inr chunks =>
          inr ("[" ++ Json.newline_indent indent (S level)
               ++ Str.join (Json.item_separator indent
                            ++ Json.newline_indent indent (S level)) chunks
               ++ Json.newline_indent indent level ++ "]")
      end
  end.
Proof. destruct items; reflexivity. Qed.

Lemma encode_dict_unfold indent level items :
  Json.encode indent level (PyDict items) =
  match items with
  | [] => inr "{}"
  | _ =>
      match encode_dict_items indent level items with
      | inl e => inl e
      | inr chunks =>
          inr ("{" ++ Json.newline_indent indent (S level)
               ++ Str.join (Json.item_separator indent
                            ++ Json.newline_indent indent (S level)) chunks
               ++ Json.newline_indent indent level ++ "}")
      end
  end.
Proof. destruct items; reflexivity. Qed.

Lemma encode_by_serialisable indent v :
  forall level,
    encode_outcome (serialisable v) (Json.encode indent level v).
Proof.
  induction v as [ |b|z|r|s|items IH|items IH|t] using pyvalue_nested_ind;
    intros level; try (cbn; by eexists).
  - destruct b; cbn; by eexists.
  - rewrite encode_list_unfold, serialisable_list.
    assert (Hitems : encode_outcome (forallb serialisable items)
                                    (encode_list_items indent level items)).
    { induction IH as [|x rest Hx _ IHrest]; [cbn; by eexists|].
      cbn [forallb encode_list_items].
      specialize (Hx (S level)). unfold encode_outcome in *.
      destruct (serialisable x); cbn [andb].
      - destruct Hx as [sx ->].
        destruct (forallb serialisable rest).
        + destruct IHrest as [ss ->]. by eexists.
        + destruct IHrest as [t ->]. by eexists.
      - destruct Hx as [t ->]. by eexists. }
    unfold encode_outcome in *. destruct items as [|x rest]; [by eexists|].
    destruct (forallb serialisable (x :: rest)).
    + destruct Hitems as [chunks ->]. by eexists.
    + destruct Hitems as [t ->]. by eexists.
  - rewrite encode_dict_unfold, serialisable_dict.
    assert (Hitems : encode_outcome
                       (forallb (fun kv => serialisable (snd kv)) items)
                       (encode_dict_items indent level items)).
    { induction IH as [|[k x] rest Hx _ IHrest]; [cbn; by eexists|].
      cbn [forallb encode_dict_items snd]. cbn [snd] in Hx.
      specialize (Hx (S level)). unfold encode_outcome in *.
      destruct (serialisable x); cbn [andb].
      - destruct Hx as [sx ->].
        destruct (forallb (fun kv => serialisable (snd kv)) rest).
        + destruct IHrest as [ss ->]. by eexists.
        + destruct IHrest as [t ->]. by eexists.
      - destruct Hx as [t ->]. by eexists. }
    unfold encode_outcome in *. destruct items as [|kx rest]; [by eexists|].
    destruct (forallb (fun kv => serialisable (snd kv)) (kx :: rest)).
    + destruct Hitems as [chunks ->]. by eexists.
    + destruct Hitems as [t ->]. by eexists.
Qed.

Section FurtherProperties.

Context {JVM CohortExpression : Type}.
Variable fromJson : string -> JVM -> (string + CohortExpression) * JVM.
Variable check :
  CohortExpression -> JVM -> (string + list JavaWarning) * JVM.
Variable json_loads : string -> string + pyvalue.
Variable start_jvm : option string -> JVM -> (string + unit) * JVM.
Variable load_classes : JVM -> (string + unit) * JVM.
Variable isJVMStarted : JVM -> bool.
Variable shutdownJVM : JVM -> (string + unit) * JVM.

Abbreviation state := (@world JVM CohortExpression).

(** ** Calls into the JVM *)

Lemma validate_cohort_jvm_protocol_frame cohort_json (w : state) :
  stdout (snd (validate_cohort fromJson check cohort_json w)) = stdout w
  /\ stderr (snd (validate_cohort fromJson check cohort_json w)) = stderr w.
Proof.
  rewrite validate_cohort_run.
  destruct (py_objs w !! cohort_json) as [v|]; [|done].
  destruct (Json.dumps v) as [message|document]; [done|].
  destruct (fromJson document (jvm w)) as [[thrown|expression] j1];
    cbn [fst snd jvm after_jcall]; [done|].
  destruct (check expression j1) as [[thrown|java_warnings] j2]; done.
Qed.


(** X3: a str argument, which is what example_usage.py passes, is handed
    to fromJson as the JSON string literal of its text.  With a parser
    that takes no JSON string for a cohort expression the call reports
    the single VALIDATION_ERROR finding and the checker is not run. *)
Theorem str_argument_is_not_a_document cohort_json (w : state) text :
  rejects_string_literals fromJson ->
  py_objs w !! cohort_json = Some (PyStr text) ->
  exists thrown,
    fst (fromJson (Json.encode_basestring_ascii text) (jvm w)) = inl thrown
    /\ fst (validate_cohort fromJson check cohort_json w)
       = Ok (validation_error thrown)
    /\ jcalls (snd (validate_cohort fromJson check cohort_json w))
       = (jcalls w ++ [CallFromJson (Json.encode_basestring_ascii text)])%list.
Proof.
  intros Hrej Hv.
  destruct (Hrej (Json.escape text ++ Str.dquote) (jvm w)) as [thrown Ht].
  change (String (ascii_of_N 34) (Json.escape text ++ Str.dquote))
    with (Json.encode_basestring_ascii text) in Ht.
  exists thrown. split; [exact Ht|].
  rewrite validate_cohort_run, Hv, dumps_str. cbn zeta. rewrite Ht.
  split; reflexivity.
Qed.

(** X4: with a parser that takes no JSON string for a cohort expression,
    validate_cohort_file reports the single VALIDATION_ERROR finding for
    every readable file, whatever its content, and never runs the
    checker. *)
Theorem readable_file_is_never_checked file_path text (w : state) :
  rejects_string_literals fromJson ->
  files w !! file_path = Some (FText text) ->
  exists thrown,
    fst (validate_cohort_file fromJson check file_path w)
    = Ok (validation_error thrown)
    /\ jcalls (snd (validate_cohort_file fromJson check file_path w))
       = (jcalls w ++ [CallFromJson (Json.encode_basestring_ascii text)])%list.
Proof.
  intros Hrej Hfile. rewrite validate_cohort_file_run, Hfile. cbn zeta.
  set (raw := fresh (dom (py_objs w))).
  set (w_raw := set_py_objs w (<[raw := PyStr text]> (py_objs w))).
  assert (Hraw : py_objs w_raw !! raw = Some (PyStr text))
    by apply lookup_insert_eq.
  destruct (Hrej (Json.escape text ++ Str.dquote) (jvm w_raw)) as [thrown Ht].
  change (String (ascii_of_N 34) (Json.escape text ++ Str.dquote))
    with (Json.encode_basestring_ascii text) in Ht.
  exists thrown. rewrite validate_cohort_run, Hraw, dumps_str. cbn zeta.
  rewrite Ht. split; reflexivity.
Qed.

(** X5: validate_cohort_file keeps every object and every file as it
    was and prints nothing; it adds at most one object, the text it read;
    and for a file that is missing or cannot be read it leaves the whole
    world as it was, so nothing reaches the JVM. *)
Theorem validate_cohort_file_frame file_path (w : state) :
  let w' := snd (validate_cohort_file fromJson check file_path w) in
  files w' = files w
  /\ stdout w' = stdout w
  /\ stderr w' = stderr w
  /\ (forall o v, py_objs w !! o = Some v -> py_objs w' !! o = Some v)
  /\ (forall o, is_Some (py_objs w' !! o) ->
                is_Some (py_objs w !! o) \/ o = fresh (dom (py_objs w)))
  /\ ((forall text, files w !! file_path <> Some (FText text)) -> w' = w).
Proof.
  cbn zeta. rewrite validate_cohort_file_run.
  destruct (files w !! file_path) as [[text|reason]|] eqn:Hfile.
  - cbn zeta. set (raw := fresh (dom (py_objs w))).
    set (w_raw := set_py_objs w (<[raw := PyStr text]> (py_objs w))).
    destruct (validate_cohort_frame fromJson check raw w_raw) as [Hobjs Hfiles].
    destruct (validate_cohort_jvm_protocol_frame raw w_raw) as [Hout Herr].
    rewrite Hobjs, Hfiles, Hout, Herr.
    split; [done|]. split; [done|]. split; [done|]. split; [|split].
    + intros o v Ho. cbn. rewrite lookup_insert_ne; [done|].
      intros <-. pose proof (is_fresh (dom (py_objs w))) as Hfresh.
      apply Hfresh, elem_of_dom. by eexists.
    + intros o. cbn. rewrite lookup_insert.
      case_decide; [by right | by left].
    + intros Hno. by destruct (Hno text).
  - by repeat split; auto.
  - by repeat split; auto.
Qed.

(** X16: validate_cohort never raises: on every argument and in every
    world it returns a pair of lists.  When the checker itself throws,
    after fromJson returned an expression, the pair is no warning and
    the single CRITICAL finding of type VALIDATION_ERROR whose message
    is Validation error: followed by the text of the throwable. *)
Theorem checker_failure_is_a_finding cohort_json (w : state) :
  (exists warnings errors w',
      validate_cohort fromJson check cohort_json w
      = (Ok (warnings, errors), w'))
  /\ (forall v document expression j1 thrown j2,
        py_objs w !! cohort_json = Some v ->
        Json.dumps v = inr document ->
        fromJson document (jvm w) = (inr expression, j1) ->
        check expression j1 = (inl thrown, j2) ->
        fst (validate_cohort fromJson check cohort_json w)
        = Ok ([], [[("message", "Validation error: " ++ thrown);
                    ("severity", "CRITICAL");
                    ("type", "VALIDATION_ERROR")]])
        /\ jcalls (snd (validate_cohort fromJson check cohort_json w))
           = (jcalls w ++ [CallFromJson document; CallCheck expression])%list).
Proof.
  split.
  - destruct (validate_cohort_cases fromJson check cohort_json w)
      as (warnings & errors & w' & Hrun & _).
    by exists warnings, errors, w'.
  - intros v document expression j1 thrown j2 Hv Hd Hf Hc.
    rewrite validate_cohort_run, Hv, Hd. cbn zeta. rewrite Hf.
    cbn [fst snd jvm after_jcall]. rewrite Hc. cbn [fst snd].
    split; [reflexivity|]. cbn. by rewrite <- app_assoc.
Qed.

(** ** The command line, beyond its exit status *)

Lemma serialisable_findings (items : list finding) :
  forallb serialisable (map finding_object items) = true.
Proof.
  induction items as [|f rest IH]; [reflexivity|].
  cbn [map forallb]. rewrite IH, andb_true_r.
  unfold finding_object. rewrite serialisable_dict.
  induction f as [|[k v] f IHf]; [reflexivity|]. cbn. exact IHf.
Qed.

Lemma render_returns fmt result (w : state) :
  exists text, render fmt result w = (Ok text, w).
Proof.
  destruct fmt; [|by eexists].
  unfold render, Json.dumps_indent.
  pose proof (encode_by_serialisable (Some 2) (result_object result) 0)
    as Henc.
  assert (Hs : serialisable (result_object result) = true).
  { unfold result_object. rewrite serialisable_dict. cbn [forallb snd].
    rewrite !serialisable_list, !serialisable_findings. reflexivity. }
  rewrite Hs in Henc. destruct Henc as [text ->]. by eexists.
Qed.

(** X6: rendering a result never fails, in either format, and changes
    nothing: json.dumps finds only dicts, lists, strs, ints and a bool in
    the result dictionary, whatever the findings are, and
    format_text_output reads the findings with get. *)
Theorem report_rendering_never_fails fmt result (w : state) :
  exists text,
    render fmt result w = (Ok text, w)
    /\ match fmt with
       | FormatJson =>
           Json.dumps_indent 2 (result_object result) = inr text
       | FormatText => text = format_text_output result
       end.
Proof.
  destruct (render_returns fmt result w) as [text Hrender].
  exists text. split; [exact Hrender|].
  revert Hrender. unfold render. destruct fmt.
  - destruct (Json.dumps_indent 2 (result_object result));
      unfold ret, raise; congruence.
  - unfold ret. congruence.
Qed.

(** X7: an option given as the empty string is an option not given:
    main behaves on the arguments as on the arguments with every empty
    output, jar-path or deps-path taken away. *)
Theorem empty_options_are_ignored args (w : state) :
  main fromJson check json_loads start_jvm load_classes args w
  = main fromJson check json_loads start_jvm load_classes
         (effective_args args) w.
Proof.
  destruct args as [input [[|co o]|] fmt [[|cj j]|] [[|cd d]|]]; reflexivity.
Qed.

Lemma main_prepare_with_deps_path args (w : state) :
  given (deps_path args) = true ->
  exists e w1,
    main_prepare json_loads start_jvm load_classes args w = (Raise e, w1)
    /\ jvm w1 = jvm w /\ jcalls w1 = jcalls w /\ stdout w1 = stdout w.
Proof.
  intros Hdeps.
  unfold main_prepare, bind, path_exists, read_text, json_load,
    new_validator, new_object, print_stderr, sys_exit, raise, ret.
  rewrite Hdeps.
  destruct (bool_decide (is_Some (files w !! input_file args)));
    [|by eexists _, _].
  destruct (files w !! input_file args) as [[text|reason]|];
    [|by eexists _, _..].
  destruct (json_loads text); by eexists _, _.
Qed.

(** X8: with a deps-path that is not empty, main exits with status 1
    on every input: the validator is never built, the JVM is not touched
    and nothing is validated or printed to the standard output. *)
Theorem deps_path_always_fails args (w : state) :
  given (deps_path args) = true ->
  let r := main fromJson check json_loads start_jvm load_classes args w in
  exit_status (fst r) = 1%Z
  /\ jvm (snd r) = jvm w
  /\ jcalls (snd r) = jcalls w
  /\ stdout (snd r) = stdout w.
Proof.
  intros Hdeps. cbn zeta. rewrite main_run.
  destruct (main_prepare_with_deps_path args w Hdeps)
    as (e & w1 & Hprep & Hjvm & Hcalls & Hout).
  rewrite Hprep.
  destruct (main_prepare_raises _ _ _ _ _ _ _ Hprep) as [-> | He].
  - cbn. done.
  - destruct e; [|discriminate]. cbn. done.
Qed.

(** X9: when the input file does not exist, main prints the one line
    naming the file to the standard error and exits with status 1; the
    rest of the world is as it was. *)
Theorem missing_input_file_is_reported args (w : state) :
  files w !! input_file args = None ->
  main fromJson check json_loads start_jvm load_classes args w
  = (Raise (SystemExit 1),
     World (py_objs w) (files w) (jvm w) (jcalls w) (stdout w)
           (stderr w ++ ["Error: Input file '" ++ input_file args
                         ++ "' not found"])).
Proof.
  intros Hnone. rewrite main_run.
  unfold main_prepare, bind, path_exists, print_stderr, sys_exit, raise.
  rewrite Hnone, bool_decide_eq_false_2; [reflexivity|].
  by intros [x Hx].
Qed.

(** X14: an input file that is not JSON is no finding for the command
    line: main prints Error: and the text of the JSONDecodeError to the
    standard error and exits with status 1; no validator is built, the
    JVM is not touched and no report is written. *)
Theorem malformed_input_file_is_an_error args text message (w : state) :
  files w !! input_file args = Some (FText text) ->
  json_loads text = inl message ->
  main fromJson check json_loads start_jvm load_classes args w
  = (Raise (SystemExit 1),
     World (py_objs w) (files w) (jvm w) (jcalls w) (stdout w)
           (stderr w ++ ["Error: " ++ message])).
Proof.
  intros Hfile Hjson. rewrite main_run.
  unfold main_prepare, bind, path_exists, read_text, json_load, ret.
  rewrite bool_decide_eq_true_2 by (rewrite Hfile; by eexists).
  cbv beta iota. rewrite Hfile. cbv beta iota. rewrite Hjson. reflexivity.
Qed.

(** ** The text report *)

Lemma numbered_lines_nth items : forall i k item,
  nth_error items k = Some item ->
  nth_error (numbered_lines i items) k = Some (report_line (i + k) item).
Proof.
  induction items as [|x rest IH]; intros i k item Hk;
    [by destruct k|].
  destruct k as [|k]; cbn in Hk |- *.
  - injection Hk as ->. by rewrite Nat.add_0_r.
  - rewrite (IH (S i) k item Hk). by rewrite Nat.add_succ_r.
Qed.

Lemma numbered_lines_length items : forall i,
  length (numbered_lines i items) = length items.
Proof. induction items as [|x rest IH]; intros i; cbn; [done|by rewrite IH]. Qed.

Lemma block_lists_items title items k item :
  nth_error items k = Some item ->
  nth_error (block title items) (2 + k) = Some (report_line (S k) item).
Proof.
  intros Hk. destruct items as [|x rest]; [by destruct k|].
  unfold block. cbn [app nth_error Nat.add].
  rewrite nth_error_app1.
  - exact (numbered_lines_nth (x :: rest) 1 k item Hk).
  - rewrite numbered_lines_length. apply nth_error_Some. by rewrite Hk.
Qed.

(** X10: the text report is its lines joined by newlines; it has a line
    for every warning and for every error, numbered from 1 in the order
    of the list, with the finding's severity and message, and UNKNOWN or
    No message for a finding without that key; a list that is empty
    gives no block at all. *)
Theorem text_report_lists_every_finding (result : cli_result) :
  format_text_output result = Str.join Str.newline (format_text_lines result)
  /\ (forall k item,
        nth_error (result_warnings result) k = Some item ->
        nth_error (format_text_lines result) (8 + k)
        = Some (report_line (S k) item))
  /\ (forall k item,
        nth_error (result_errors result) k = Some item ->
        nth_error (format_text_lines result)
                  (6 + length (block "WARNINGS:" (result_warnings result))
                   + 2 + k)
        = Some (report_line (S k) item))
  /\ length (format_text_lines result)
     = 6 + length (block "WARNINGS:" (result_warnings result))
       + length (block "ERRORS:" (result_errors result))
  /\ (forall title items,
        length (block title items)
        = match items with [] => 0 | _ => length items + 3 end).
Proof.
  split; [reflexivity|]. split; [|split; [|split]].
  - intros k item Hk. unfold format_text_lines.
    change (8 + k) with (6 + (2 + k)).
    rewrite nth_error_app2; [|cbn; lia].
    cbn [length]. replace (6 + (2 + k) - 6) with (2 + k) by lia.
    rewrite nth_error_app1.
    + by apply block_lists_items.
    + apply nth_error_Some. by rewrite (block_lists_items _ _ _ _ Hk).
  - intros k item Hk. unfold format_text_lines.
    rewrite nth_error_app2; [|cbn; lia]. cbn [length].
    rewrite nth_error_app2; [|lia].
    replace (_ - 6 - _) with (2 + k) by lia.
    by apply block_lists_items.
  - unfold format_text_lines. rewrite !length_app. cbn [length]. lia.
  - intros title [|x rest]; [reflexivity|].
    unfold block. rewrite !length_app, numbered_lines_length. cbn [length]. lia.
Qed.

(** ** [cohort_validator.py] run as a program *)

Abbreviation script_main :=
  (Script.main fromJson check start_jvm load_classes isJVMStarted
               shutdownJVM).

Lemma file_findings_have_three_keys file_path (w w' : state) warnings errors :
  validate_cohort_file fromJson check file_path w
  = (Ok (warnings, errors), w') ->
  Forall has_three_keys (warnings ++ errors)%list.
Proof.
  rewrite validate_cohort_file_run.
  destruct (files w !! file_path) as [[text|reason]|].
  - cbn zeta. intros Hrun.
    destruct (validate_cohort_cases fromJson check
                (fresh (dom (py_objs w)))
                (set_py_objs w (<[fresh (dom (py_objs w)) := PyStr text]>
                                  (py_objs w))))
      as (ws & es & w2 & Hval & Hcases).
    rewrite Hval in Hrun. injection Hrun as -> -> ->.
    destruct Hcases as [(jws & _ & Hperm) | (t & Heq)].
    + apply List.Forall_forall. intros f Hin.
      apply (Permutation_in _ Hperm) in Hin.
      by apply in_map_iff in Hin as (jw & <- & _).
    + injection Heq as -> ->. by repeat constructor.
  - intros H. injection H as <- <- <-. by repeat constructor.
  - intros H. injection H as <- <- <-. by repeat constructor.
Qed.

Lemma printed_printed (w : state) l1 l2 :
  printed (printed w l1) l2 = printed w (l1 ++ l2)%list.
Proof. unfold printed. cbn. by rewrite app_assoc. Qed.

Lemma print_stdout_printed line (w : state) :
  print_stdout line w = (Ok tt, printed w [line]).
Proof. reflexivity. Qed.

Lemma print_findings_returns items :
  Forall has_three_keys items ->
  forall i (w : state),
  exists lines, Script.print_findings i items w = (Ok tt, printed w lines).
Proof.
  induction 1 as [|f rest Hf _ IH]; intros i w.
  - exists []. unfold printed. cbn. rewrite app_nil_r. by destruct w.
  - destruct f as [|[k1 v1] [|[k2 v2] [|[k3 v3] [|? ?]]]]; try discriminate.
    injection Hf as -> -> ->.
    cbn [Script.print_findings]. unfold bind, Script.getitem. cbn.
    match goal with
    | |- context [Script.print_findings (S i) rest ?W] =>
        destruct (IH (S i) W) as [lines ->]
    end.
    exists (("  " ++ Str.of_nat i ++ ". [" ++ v2 ++ "] " ++ v1) :: lines).
    unfold printed. cbn. by rewrite <- app_assoc.
Qed.

Lemma print_block_returns title items (w : state) :
  Forall has_three_keys items ->
  exists lines, Script.print_block title items w = (Ok tt, printed w lines).
Proof.
  intros Hkeys. destruct items as [|f rest].
  - exists []. unfold printed. cbn. rewrite app_nil_r. by destruct w.
  - unfold Script.print_block, bind. rewrite print_stdout_printed.
    destruct (print_findings_returns (f :: rest) Hkeys 1
                (printed w [Str.newline ++ title])) as [lines ->].
    rewrite printed_printed. by eexists.
Qed.

Lemma validate_and_print_returns file_path (w : state) :
  exists warnings errors lines,
    validate_cohort_file fromJson check file_path w
    = (Ok (warnings, errors),
       snd (validate_cohort_file fromJson check file_path w))
    /\ Script.validate_and_print fromJson check file_path w
       = (Ok tt,
          printed (snd (validate_cohort_file fromJson check file_path w))
                  (("Validation Results for " ++ file_path ++ ":")
                   :: ("Warnings: " ++ Str.of_nat (length warnings))
                   :: ("Errors: " ++ Str.of_nat (length errors))
                   :: lines)).
Proof.
  destruct (validate_cohort_file fromJson check file_path w)
    as [[[warnings errors]|e] w2] eqn:Hrun.
  2:{ exfalso. revert Hrun. rewrite validate_cohort_file_run.
      destruct (files w !! file_path) as [[text|reason]|]; try discriminate.
      cbn zeta.
      destruct (validate_cohort_cases fromJson check
                  (fresh (dom (py_objs w)))
                  (set_py_objs w (<[fresh (dom (py_objs w)) := PyStr text]>
                                    (py_objs w))))
        as (ws & es & w3 & -> & _).
      discriminate. }
  pose proof (file_findings_have_three_keys _ _ _ _ _ Hrun) as Hkeys.
  apply Forall_app in Hkeys as [Hw He].
  exists warnings, errors. cbn [snd].
  unfold Script.validate_and_print, bind. rewrite Hrun. cbn [fst snd].
  rewrite !print_stdout_printed, !printed_printed.
  match goal with
  | |- context [Script.print_block "Warnings:" warnings ?W] =>
      destruct (print_block_returns "Warnings:" warnings W Hw) as [l1 ->]
  end.
  rewrite printed_printed.
  match goal with
  | |- context [Script.print_block "Errors:" errors ?W] =>
      destruct (print_block_returns "Errors:" errors W He) as [l2 ->]
  end.
  rewrite printed_printed.
  destruct warnings, errors; unfold ret;
    rewrite ?print_stdout_printed, ?printed_printed;
    eexists; (split; [reflexivity|]); cbn [app]; reflexivity.
Qed.

Lemma validate_cohort_file_prints_nothing file_path (w : state) :
  stdout (snd (validate_cohort_file fromJson check file_path w)) = stdout w.
Proof.
  rewrite validate_cohort_file_run.
  destruct (files w !! file_path) as [[text|reason]|]; [|done..].
  cbn zeta.
  by destruct (validate_cohort_jvm_protocol_frame
                 (fresh (dom (py_objs w)))
                 (set_py_objs w (<[fresh (dom (py_objs w)) := PyStr text]>
                                   (py_objs w)))) as [-> _].
Qed.

Lemma constructor_raises_exceptions_only jar (w w1 : state) e :
  CohortValidator_init start_jvm load_classes jar w = (Raise e, w1) ->
  is_Exception e = true.
Proof.
  unfold CohortValidator_init, bind, jvm_step. intros H.
  run_cases H; inversion H; subst; reflexivity.
Qed.

(** X11: run as a program on one file, with a validator that could be
    built and a JVM that shuts down, cohort_validator.py ends normally,
    so with exit status 0, whatever validate_cohort_file returned: also
    when the errors list is not empty, the file is missing or cannot be
    read.  It prints the header and the two counts first, and it shuts
    the JVM down at the end if the JVM is running. *)
Theorem script_exits_with_zero_whatever_is_found
        prog file_path (w w1 : state) :
  CohortValidator_init start_jvm load_classes None w = (Ok tt, w1) ->
  (isJVMStarted
     (jvm (snd (validate_cohort_file fromJson check file_path w1))) = true ->
   exists j,
     shutdownJVM
       (jvm (snd (validate_cohort_file fromJson check file_path w1)))
     = (inr tt, j)) ->
  exists warnings errors lines,
    fst (validate_cohort_file fromJson check file_path w1)
    = Ok (warnings, errors)
    /\ fst (script_main [prog; file_path] w) = Ok tt
    /\ exit_status (fst (script_main [prog; file_path] w)) = 0%Z
    /\ stdout (snd (script_main [prog; file_path] w))
       = app (stdout w1)
             (("Validation Results for " ++ file_path ++ ":")
              :: ("Warnings: " ++ Str.of_nat (length warnings))
              :: ("Errors: " ++ Str.of_nat (length errors))
              :: lines)
    /\ jvm (snd (script_main [prog; file_path] w))
       = (let j := jvm (snd (validate_cohort_file fromJson check file_path
                                                  w1)) in
          if isJVMStarted j then snd (shutdownJVM j) else j).
Proof.
  intros Hinit Hdown.
  destruct (validate_and_print_returns file_path w1)
    as (warnings & errors & lines & Hval & Hprint).
  pose proof (validate_cohort_file_prints_nothing file_path w1) as Hout.
  exists warnings, errors, lines. split; [by rewrite Hval|].
  unfold Script.main. rewrite Hinit.
  unfold Script.try_finally, try_except. rewrite Hprint.
  revert Hdown Hout.
  generalize (snd (validate_cohort_file fromJson check file_path w1)).
  intros w2 Hdown Hout.
  unfold Script.shutdown, jvm_step. cbn [jvm printed].
  destruct (isJVMStarted (jvm w2)) eqn:Hstarted.
  - destruct (Hdown eq_refl) as [j Hj]. rewrite Hj. cbn. by rewrite Hout.
  - cbn. by rewrite Hout.
Qed.

(** X12: called with no file argument, or with more than one, the
    program prints its usage line and exits with status 1, before it
    builds a validator: the JVM and the rest of the world are as they
    were. *)
Theorem script_usage_error (argv : list string) (w : state) :
  length argv <> 2 ->
  script_main argv w
  = (Raise (SystemExit 1),
     printed w ["Usage: python cohort_validator.py <cohort_json_file>"]).
Proof.
  intros Hlen. destruct argv as [|a [|b [|c rest]]]; try reflexivity.
  by destruct Hlen.
Qed.

(** X13: when the constructor of the validator raises, the program goes
    on from the world the constructor left: it prints one more line to
    the standard output, Error: followed by the text of the exception,
    and exits with status 1; the finally clause finds no validator and
    does not shut the JVM down. *)
Theorem script_constructor_failure prog file_path (w w1 : state) e :
  CohortValidator_init start_jvm load_classes None w = (Raise e, w1) ->
  script_main [prog; file_path] w
  = (Raise (SystemExit 1), printed w1 ["Error: " ++ exn_str e])
  /\ exit_status (fst (script_main [prog; file_path] w)) = 1%Z
  /\ jvm (snd (script_main [prog; file_path] w)) = jvm w1.
Proof.
  intros Hinit.
  pose proof (constructor_raises_exceptions_only _ _ _ _ Hinit) as He.
  assert (Hrun : script_main [prog; file_path] w
                 = (Raise (SystemExit 1),
                    printed w1 ["Error: " ++ exn_str e])).
  { unfold Script.main. rewrite Hinit.
    unfold Script.try_finally, Script.handlers, dispatch. rewrite He.
    reflexivity. }
  rewrite Hrun. by repeat split.
Qed.

End FurtherProperties.

(** * The further properties at work on the small Java side *)

Lemma toy_parser_rejects_string_literals :
  rejects_string_literals Toy.fromJson.
Proof. intros rest j. eexists. reflexivity. Defined.


Lemma a_str_is_bound : py_objs Toy.world0 !! 2 = Some (PyStr "{}").
Proof. reflexivity. Defined.

Lemma str_argument_is_not_a_document_witness :
  rejects_string_literals Toy.fromJson
  /\ py_objs Toy.world0 !! 2 = Some (PyStr "{}")
  /\ exists thrown,
       fst (validate_cohort Toy.fromJson Toy.sample_check 2 Toy.world0)
       = Ok (validation_error thrown).
Proof.
  split; [exact toy_parser_rejects_string_literals|].
  split; [exact a_str_is_bound|].
  destruct (str_argument_is_not_a_document
              Toy.fromJson Toy.sample_check 2 Toy.world0 "{}"
              toy_parser_rejects_string_literals a_str_is_bound)
    as (thrown & _ & Hrun & _).
  by exists thrown.
Defined.

Lemma readable_file_is_never_checked_witness :
  rejects_string_literals Toy.fromJson
  /\ files Toy.world0 !! "cohort.json" = Some (FText "{}")
  /\ exists thrown,
       fst (validate_cohort_file Toy.fromJson Toy.sample_check "cohort.json"
                                 Toy.world0)
       = Ok (validation_error thrown).
Proof.
  split; [exact toy_parser_rejects_string_literals|].
  split; [exact cohort_file_is_readable|].
  destruct (readable_file_is_never_checked
              Toy.fromJson Toy.sample_check "cohort.json" "{}" Toy.world0
              toy_parser_rejects_string_literals cohort_file_is_readable)
    as (thrown & Hrun & _).
  by exists thrown.
Defined.

Lemma validate_cohort_file_frame_witness :
  snd (validate_cohort_file Toy.fromJson Toy.sample_check "missing.json"
                            Toy.world0)
  = Toy.world0.
Proof.
  apply (proj2 (proj2 (proj2 (proj2 (proj2
           (validate_cohort_file_frame Toy.fromJson Toy.sample_check
                                       "missing.json" Toy.world0)))))).
  intros text. discriminate.
Defined.

Lemma report_rendering_never_fails_witness :
  exists text,
    Json.dumps_indent 2
      (result_object (make_result "cohort.json" []
                        [critical "File not found: x" "FILE_ERROR"]))
    = inr text.
Proof.
  destruct (report_rendering_never_fails
              FormatJson
              (make_result "cohort.json" []
                           [critical "File not found: x" "FILE_ERROR"])
              Toy.world0)
    as (text & _ & Htext).
  by exists text.
Defined.

Lemma deps_path_always_fails_witness :
  given (deps_path ToyJVM.deps_path_args) = true
  /\ exit_status
       (fst (main Toy.fromJson Toy.silent_check Toy.json_loads Toy.start_jvm
                  Toy.load_classes ToyJVM.deps_path_args Toy.world0)) = 1%Z.
Proof.
  split; [reflexivity|].
  exact (proj1 (deps_path_always_fails
                  Toy.fromJson Toy.silent_check Toy.json_loads Toy.start_jvm
                  Toy.load_classes ToyJVM.deps_path_args Toy.world0 eq_refl)).
Defined.

Lemma missing_input_file_is_reported_witness :
  files Toy.world0 !! "missing.json" = None
  /\ stderr (snd (main Toy.fromJson Toy.silent_check Toy.json_loads
                       Toy.start_jvm Toy.load_classes ToyJVM.missing_input_args
                       Toy.world0))
     = ["Error: Input file 'missing.json' not found"].
Proof.
  split; [reflexivity|].
  rewrite (missing_input_file_is_reported
             Toy.fromJson Toy.silent_check Toy.json_loads Toy.start_jvm
             Toy.load_classes ToyJVM.missing_input_args Toy.world0 eq_refl).
  reflexivity.
Defined.

Lemma text_report_lists_every_finding_witness :
  nth_error
    (format_text_lines
       (make_result "cohort.json" []
                    [critical "File not found: x" "FILE_ERROR"]))
    8
  = Some "1. [CRITICAL] File not found: x".
Proof.
  exact (proj1 (proj2 (proj2 (text_report_lists_every_finding
                                (make_result "cohort.json" []
                                   [critical "File not found: x"
                                             "FILE_ERROR"]))))
               0 (critical "File not found: x" "FILE_ERROR") eq_refl).
Defined.

Lemma toy_validator_is_built :
  CohortValidator_init Toy.start_jvm Toy.load_classes None Toy.world0
  = (Ok tt,
     snd (CohortValidator_init Toy.start_jvm Toy.load_classes None
                               Toy.world0)).
Proof. reflexivity. Defined.

Lemma script_exits_with_zero_whatever_is_found_witness :
  exists errors,
    errors <> []
    /\ fst (validate_cohort_file
              Toy.fromJson Toy.sample_check "cohort.json"
              (snd (CohortValidator_init Toy.start_jvm Toy.load_classes None
                                         Toy.world0)))
       = Ok ([], errors)
    /\ exit_status
         (fst (Script.main Toy.fromJson Toy.sample_check Toy.start_jvm
                           Toy.load_classes ToyJVM.isJVMStarted
                           ToyJVM.shutdownJVM
                           ["cohort_validator.py"; "cohort.json"]
                           Toy.world0)) = 0%Z.
Proof.
  destruct (script_exits_with_zero_whatever_is_found
              Toy.fromJson Toy.sample_check Toy.start_jvm Toy.load_classes
              ToyJVM.isJVMStarted ToyJVM.shutdownJVM
              "cohort_validator.py" "cohort.json" Toy.world0 _
              toy_validator_is_built
              (fun _ => ex_intro _ 0 eq_refl))
    as (warnings & errors & lines & Hval & _ & Hstatus & _).
  exists [critical
            ("Validation error: MismatchedInputException: "
             ++ "cannot construct CohortExpression") "VALIDATION_ERROR"].
  split; [discriminate|]. split; [reflexivity | exact Hstatus].
Defined.

Lemma script_usage_error_witness :
  exit_status
    (fst (Script.main Toy.fromJson Toy.sample_check Toy.start_jvm
                      Toy.load_classes ToyJVM.isJVMStarted
                      ToyJVM.shutdownJVM ["cohort_validator.py"]
                      Toy.world0)) = 1%Z.
Proof.
  rewrite (script_usage_error
             Toy.fromJson Toy.sample_check Toy.start_jvm Toy.load_classes
             ToyJVM.isJVMStarted ToyJVM.shutdownJVM ["cohort_validator.py"]
             Toy.world0);
    [reflexivity | discriminate].
Defined.

Lemma toy_validator_is_not_built :
  CohortValidator_init Toy.start_jvm ToyJVM.failing_load_classes None
                       Toy.world0
  = (Raise (Exn RuntimeError
              "Failed to load Java classes: No module named 'org'"),
     snd (CohortValidator_init Toy.start_jvm ToyJVM.failing_load_classes
                               None Toy.world0)).
Proof. reflexivity. Defined.

Lemma script_constructor_failure_witness :
  exit_status
    (fst (Script.main Toy.fromJson Toy.sample_check Toy.start_jvm
                      ToyJVM.failing_load_classes ToyJVM.isJVMStarted
                      ToyJVM.shutdownJVM
                      ["cohort_validator.py"; "cohort.json"] Toy.world0))
  = 1%Z.
Proof.
  exact (proj1 (proj2 (script_constructor_failure
                         Toy.fromJson Toy.sample_check Toy.start_jvm
                         ToyJVM.failing_load_classes ToyJVM.isJVMStarted
                         ToyJVM.shutdownJVM
                         "cohort_validator.py" "cohort.json" Toy.world0 _ _
                         toy_validator_is_not_built))).
Defined.

Lemma malformed_input_file_is_an_error_witness :
  files ToyJVM.world_with_broken_file !! "broken.json" = Some (FText "{")
  /\ Toy.json_loads "{" = inl "Expecting value: line 1 column 1 (char 0)"
  /\ exit_status
       (fst (main Toy.fromJson Toy.silent_check Toy.json_loads Toy.start_jvm
                  Toy.load_classes ToyJVM.broken_input_args
                  ToyJVM.world_with_broken_file)) = 1%Z.
Proof.
  split; [reflexivity|]. split; [reflexivity|].
  rewrite (malformed_input_file_is_an_error
             Toy.fromJson Toy.silent_check Toy.json_loads Toy.start_jvm
             Toy.load_classes ToyJVM.broken_input_args "{"
             "Expecting value: line 1 column 1 (char 0)"
             ToyJVM.world_with_broken_file eq_refl eq_refl).
  reflexivity.
Defined.

Lemma checker_failure_is_a_finding_witness :
  fst (validate_cohort Toy.fromJson ToyJVM.throwing_check 1 Toy.world0)
  = Ok ([], [[("message",
               "Validation error: java.lang.NullPointerException");
              ("severity", "CRITICAL"); ("type", "VALIDATION_ERROR")]]).
Proof.
  exact (proj1 (proj2 (checker_failure_is_a_finding
                         Toy.fromJson ToyJVM.throwing_check 1 Toy.world0)
                      (PyDict []) "{}" "{}" 1
                      "java.lang.NullPointerException" 2
                      eq_refl eq_refl eq_refl eq_refl)).
Defined.
